(** * parse-cloud-express: the webhook adapter of [index.js]

    The module wraps Cloud Code triggers and functions into Express routes.
    This development embeds the request pipeline of [index.js]: the values
    that travel through it, the middleware functions, the five registration
    functions with the [Routes] table, and the dispatch of a request through
    the mounted application.

    Conventions of the embedding.
    - JavaScript values are the type [value]: [undefined], [null], booleans,
      integer numbers, strings and plain objects (a finite map from property
      names to values).  Fractions, [NaN], arrays and function values are
      outside the model.
    - Express's [req] is the record [request]; [res] is the pair of the
      installed [success]/[error] closures and the [wire], the ordered log of
      what happened on the response.  [res.status(s).send(b)] appends
      [Sent s b] to the wire; the reply a client receives is the first
      [Sent] of the wire, later ones reach nobody.
    - The Parse SDK ([Parse.Object.fromJSON], [set], [toJSON],
      [Parse._encode], [Parse._decode]) is external to [index.js]: it is the
      interface [ParseSDK], and its calls are taken to return normally.
    - [console.log] has no effect on [req] or [res] and is left out. *)

From stdpp Require Import base gmap strings list pretty.
From Stdlib Require Import ZArith.

#[local] Open Scope string_scope.
#[local] Open Scope Z_scope.
#[local] Open Scope list_scope.
#[local] Set Warnings "-register-all".

(** ** JavaScript values *)

Inductive value : Type :=
| VUndefined
| VNull
| VBool (b : bool)
| VNum (n : Z)
| VStr (s : string)
| VObj (fields : gmap string value).

(** ToBoolean: the test of [if (x)], [!x], [x && y] and [x || y]. *)
Definition truthy (v : value) : bool :=
  match v with
  | VUndefined | VNull => false
  | VBool b => b
  | VNum n => negb (n =? 0)
  | VStr s => negb (String.eqb s "")
  | VObj _ => true
  end.

(** [data || true], the defaulting of [successResponse]/[errorResponse]. *)
Definition or_true (data : value) : value :=
  if truthy data then data else VBool true.

(** [a === b].  Objects are compared by identity in JavaScript; every use
    in [index.js] has a primitive on one side at least, where an object
    operand makes the comparison false. *)
Definition strict_eq (a b : value) : bool :=
  match a, b with
  | VUndefined, VUndefined => true
  | VNull, VNull => true
  | VBool x, VBool y => Bool.eqb x y
  | VNum x, VNum y => x =? y
  | VStr x, VStr y => String.eqb x y
  | _, _ => false
  end.

(** ToString, as applied by ['/prefix_' + x]. *)
Definition ToString (v : value) : string :=
  match v with
  | VUndefined => "undefined"
  | VNull => "null"
  | VBool true => "true"
  | VBool false => "false"
  | VNum n => pretty n
  | VStr s => s
  | VObj _ => "[object Object]"
  end.

(** [v.k] for a [v] that is neither [undefined] nor [null] (reading a
    property of those throws; the callers below check before they read).
    Primitives have none of the properties read by [index.js]. *)
Definition prop (v : value) (k : string) : value :=
  match v with
  | VObj fields => default VUndefined (fields !! k)
  | _ => VUndefined
  end.

(** [v.k = x].  The file is not in strict mode: assigning a property of a
    primitive is silently dropped. *)
Definition set_prop (v : value) (k : string) (x : value) : value :=
  match v with
  | VObj fields => VObj (<[k := x]> fields)
  | _ => v
  end.

(** [k in v] for a response body. *)
Definition has_key (k : string) (v : value) : bool :=
  match v with
  | VObj fields => bool_decide (is_Some (fields !! k))
  | _ => false
  end.

(** The spec's envelope invariant: exactly one of [success], [error]. *)
Definition is_envelope (body : value) : bool :=
  xorb (has_key "success" body) (has_key "error" body).

(** The defaulting the specification writes, [v ?? true]: only [undefined]
    and [null] are replaced. *)
Definition nullish_or_true (v : value) : value :=
  match v with
  | VUndefined | VNull => VBool true
  | _ => v
  end.

(** ** The Parse SDK, as far as [index.js] calls it *)

Class ParseSDK := {
  (** [Parse.Object.fromJSON(json)] *)
  Parse_Object_fromJSON : value -> value;
  (** [object.set(attrs)]: the object after the call *)
  Parse_Object_set : value -> value -> value;
  (** [object.toJSON()] *)
  Parse_Object_toJSON : value -> value;
  (** [Parse._decode(undefined, v)] *)
  Parse_decode : value -> value;
  (** [Parse._encode(v)] *)
  Parse_encode : value -> value
}.

(** A stand-in SDK whose objects are their own wire form: [set] merges the
    attributes into the object, everything else is the identity.  It
    instantiates the interface where a concrete run is evaluated. *)
Definition wireSDK : ParseSDK := {|
  Parse_Object_fromJSON := fun json => json;
  Parse_Object_set := fun o attrs =>
    match o, attrs with
    | VObj m, VObj a => VObj (a ∪ m)
    | _, _ => o
    end;
  Parse_Object_toJSON := fun o => o;
  Parse_decode := fun v => v;
  Parse_encode := fun v => v
|}.

(** ** Requests, responses and middleware *)

Inductive event : Type :=
| Sent (status : Z) (body : value)   (* res.status(status).send(body) *)
| Enter (name : string).             (* a layer of the stack was called *)

Record request := Request {
  req_method : string;
  req_path : string;
  req_headers : gmap string string;
  req_body : value;            (* as left by bodyParser.json() *)
  req_object : value;
  req_user : value;
  req_master : value;
  req_params : value;
  req_installationId : value
}.

(** [req.get(name)] *)
Definition req_get (r : request) (name : string) : value :=
  match req_headers r !! name with
  | Some s => VStr s
  | None => VUndefined
  end.

Definition with_body (b : value) (r : request) : request :=
  Request (req_method r) (req_path r) (req_headers r) b (req_object r)
          (req_user r) (req_master r) (req_params r) (req_installationId r).
Definition with_object (o : value) (r : request) : request :=
  Request (req_method r) (req_path r) (req_headers r) (req_body r) o
          (req_user r) (req_master r) (req_params r) (req_installationId r).
Definition with_user (u : value) (r : request) : request :=
  Request (req_method r) (req_path r) (req_headers r) (req_body r)
          (req_object r) u (req_master r) (req_params r) (req_installationId r).
Definition with_master (m : value) (r : request) : request :=
  Request (req_method r) (req_path r) (req_headers r) (req_body r)
          (req_object r) (req_user r) m (req_params r) (req_installationId r).
Definition with_params (p : value) (r : request) : request :=
  Request (req_method r) (req_path r) (req_headers r) (req_body r)
          (req_object r) (req_user r) (req_master r) p (req_installationId r).
Definition with_installationId (i : value) (r : request) : request :=
  Request (req_method r) (req_path r) (req_headers r) (req_body r)
          (req_object r) (req_user r) (req_master r) (req_params r) i.

(** A closure stored in [res.success] or [res.error].  It captured [req]
    and [res] by reference, so a call reads the request and the wire as
    they are when it is called. *)
Definition responder : Type := value -> request -> list event -> list event.

Record context := Context {
  req : request;
  res_success : option responder;
  res_error : option responder;
  wire : list event
}.

Definition on_req (f : request -> request) (c : context) : context :=
  Context (f (req c)) (res_success c) (res_error c) (wire c).
Definition on_wire (f : list event -> list event) (c : context) : context :=
  Context (req c) (res_success c) (res_error c) (f (wire c)).

(** A middleware returns the context it leaves and whether it called
    [next()]. *)
Definition middleware : Type := context -> context * bool.

(** [res.status(code).send(body)] *)
Definition status_send (code : Z) (body : value) (res : list event) : list event :=
  res ++ [Sent code body].

Definition successResponse (res : list event) (data : value) : list event :=
  let data := or_true data in
  status_send 200 (VObj {[ "success" := data ]}) res.

Definition errorResponse (res : list event) (message : value) : list event :=
  let message := or_true message in
  status_send 200 (VObj {[ "error" := message ]}) res.

Definition emptyResponse : middleware := fun c =>
  (on_wire (status_send 200 (VObj ∅)) c, true).

(** [entryLogger(className, actionType)] writes one line to the console and
    calls [next()]. *)
Definition entryLogger (className : value) (actionType : string) : middleware :=
  fun c => (c, true).

(** [bodyParser.json()]: the request of the model carries the parsed body. *)
Definition jsonParser : middleware := fun c => (c, true).

(** What a trigger handler does with [(req, res)], in order, now or in a
    later callback: calls of [res.success] and [res.error], and changes of
    [req.object].  It is the last layer of its stack and does not hand on
    with [next()]. *)
Inductive action : Type :=
| CallSuccess (data : value)
| CallError (data : value)
| SetObject (o : value).

(** A handler of [beforeSave], [afterSave], [beforeDelete], [afterDelete]. *)
Definition handler : Type := request -> list action.

(** The promise returned by the handler of a cloud function, as it ends
    up: fulfilled, rejected, or never settled. *)
Inductive deferred : Type :=
| Resolved (response : value)
| Rejected (error : value)
| Pending.

Definition cloud_function : Type := request -> deferred.

(** A layer of an Express stack: the function and the name it is listed
    under. *)
Record layer := Layer {
  layer_name : string;
  handle : middleware
}.

Record route := Route {
  route_method : string;
  route_path : string;
  route_stack : list layer
}.

(** The module state: the routes mounted on [app] and the [Routes] table. *)
Record state := State {
  app : list route;
  Routes : gmap string (list value)
}.

Inductive hook_kind : Type :=
| BeforeSave | AfterSave | BeforeDelete | AfterDelete | Function.

Definition kind_name (k : hook_kind) : string :=
  match k with
  | BeforeSave => "beforeSave"
  | AfterSave => "afterSave"
  | BeforeDelete => "beforeDelete"
  | AfterDelete => "afterDelete"
  | Function => "function"
  end.

Definition hookKindPrefix (k : hook_kind) : string := "/" +:+ kind_name k.

(** [Routes[kind]] *)
Definition entry (k : hook_kind) (st : state) : list value :=
  default [] (Routes st !! kind_name k).

(** [var Routes = {...}] and [var app = express()] before any registration. *)
Definition initial : state :=
  State [] {[ "beforeSave" := []; "afterSave" := []; "beforeDelete" := [];
              "afterDelete" := []; "function" := [] ]}.

(** [app.post(path, ...stack)] *)
Definition app_post (p : string) (stack : list layer) (routes : list route)
  : list route :=
  routes ++ [Route "POST" p stack].

(** [Routes[kind].push(className)].  The five keys are in the table from
    the start (lemma [installed_keys]); [alter] leaves a table without the
    key as it is, where JavaScript would throw. *)
Definition Routes_push (kind : string) (className : value)
    (t : gmap string (list value)) : gmap string (list value) :=
  alter (fun l => l ++ [className]) kind t.

(** Calling what is stored in a method slot.  Calling [undefined] throws a
    TypeError and nothing is sent. *)
Definition apply_responder (f : option responder) (data : value)
    (rq : request) (w : list event) : list event :=
  match f with
  | Some g => g data rq w
  | None => w
  end.

(** [res.success(data)], [res.error(data)] *)
Definition call (f : option responder) (data : value) (c : context) : context :=
  on_wire (apply_responder f data (req c)) c.

Definition perform (c : context) (a : action) : context :=
  match a with
  | CallSuccess data => call (res_success c) data c
  | CallError data => call (res_error c) data c
  | SetObject o => on_req (with_object o) c
  end.

(** The user's trigger handler as the last layer of a stack. *)
Definition invoke (h : handler) : middleware := fun c =>
  (fold_left perform (h (req c)) c, false).

Definition enter (name : string) (c : context) : context :=
  on_wire (fun w => w ++ [Enter name]) c.

(** Express runs the layers of a stack in order; a layer that does not
    call [next()] ends the run. *)
Fixpoint run_stack (stack : list layer) (c : context) : context * bool :=
  match stack with
  | [] => (c, true)
  | l :: rest =>
      let '(c', next) := handle l (enter (layer_name l) c) in
      if next then run_stack rest c' else (c', false)
  end.

(** A route is tried on the requests of its method and path; the path
    is compared as it is written.  Express's own matcher is wider (letter
    case, a trailing slash, pattern characters in the mounted path): the
    statements below take the route that serves a request as given and do
    not conclude from two paths being different strings. *)
Definition matches (rt : route) (r : request) : bool :=
  String.eqb (route_method rt) (req_method r)
  && String.eqb (route_path rt) (req_path r).

(** The router: routes are tried in the order they were mounted. *)
Fixpoint dispatch (routes : list route) (c : context) : context :=
  match routes with
  | [] => c
  | rt :: rest =>
      if matches rt (req c) then
        let '(c', next) := run_stack (route_stack rt) c in
        if next then dispatch rest c' else c'
      else dispatch rest c
  end.

Definition new_context (r : request) : context := Context r None None [].

(** The replies recorded on a wire, and the one the client receives. *)
Definition responses (w : list event) : list (Z * value) :=
  omap (fun e => match e with Sent s b => Some (s, b) | Enter _ => None end) w.

Definition transmitted (w : list event) : option (Z * value) :=
  head (responses w).

Section Adapter.
Context {Parse : ParseSDK}.

(** [process.env.PARSE_WEBHOOK_KEY]: a string, or [undefined] when unset. *)
Variable webhookKey : value.

Definition validateWebhookRequest : middleware := fun c =>
  if negb (strict_eq (req_get (req c) "X-Parse-Webhook-Key") webhookKey)
  then (on_wire (fun res => errorResponse res (VStr "Unauthorized Request.")) c,
        false)
  else (c, true).

Definition inflateParseObject : middleware := fun c =>
  let body := req_body (req c) in
  let req_object :=
    if truthy (prop body "original") && truthy (prop body "update") then
      let object := Parse_Object_fromJSON (prop body "original") in
      let object := Parse_Object_set object (Parse_decode (prop body "update")) in
      object
    else
      Parse_Object_fromJSON (prop body "object") in
  (on_req (with_object req_object) c, true).

Definition addParseResponseMethods : middleware := fun c =>
  (Context (req c)
     (Some (fun data _ res => successResponse res data))
     (Some (fun data _ res => errorResponse res data))
     (wire c),
   true).

Definition encodeSuccessResponseObject : middleware := fun c =>
  let originalSuccess := res_success c in
  (Context (req c)
     (Some (fun data rq res =>
              apply_responder originalSuccess (Parse_encode data) rq res))
     (res_error c)
     (wire c),
   true).

Definition updateRequestFunctionParams : middleware := fun c =>
  (on_req (fun r => with_params (prop (req_body r) "params") r) c, true).

Definition updateRequestInstallationId : middleware := fun c =>
  (on_req (fun r => with_installationId (prop (req_body r) "installationId") r) c,
   true).

Definition inflateParseUser : middleware := fun c =>
  let r := req c in
  let r :=
    if truthy (prop (req_body r) "user") then
      let body :=
        if strict_eq (prop (prop (req_body r) "user") "className") VUndefined
        then set_prop (req_body r) "user"
               (set_prop (prop (req_body r) "user") "className" (VStr "_User"))
        else req_body r in
      with_user (Parse_Object_fromJSON (prop body "user")) (with_body body r)
    else r in
  (on_req (fun _ => with_master (prop (req_body r) "master") r) c, true).

Definition beforeSaveResponseMojo : middleware := fun c =>
  let originalSuccess := res_success c in
  (Context (req c)
     (Some (fun _ rq res =>
              let jsonObject := Parse_Object_toJSON (req_object rq) in
              apply_responder originalSuccess jsonObject rq res))
     (res_error c)
     (wire c),
   true).

(** The last layer of a function route:
    [handler(req).then(res.success).catch(res.error)].  Both slots are
    filled by the layers before it. *)
Definition settle (h : cloud_function) : middleware := fun c =>
  match h (req c) with
  | Resolved response => (call (res_success c) response c, false)
  | Rejected error => (call (res_error c) error c, false)
  | Pending => (c, false)
  end.

Definition beforeSave_stack (className : value) (h : handler) : list layer :=
  [ Layer "entryLogger" (entryLogger className "beforeSave");
    Layer "updateRequestInstallationId" updateRequestInstallationId;
    Layer "addParseResponseMethods" addParseResponseMethods;
    Layer "inflateParseObject" inflateParseObject;
    Layer "inflateParseUser" inflateParseUser;
    Layer "beforeSaveResponseMojo" beforeSaveResponseMojo;
    Layer "handler" (invoke h) ].

Definition afterSave_stack (className : value) (h : handler) : list layer :=
  [ Layer "entryLogger" (entryLogger className "afterSave");
    Layer "updateRequestInstallationId" updateRequestInstallationId;
    Layer "addParseResponseMethods" addParseResponseMethods;
    Layer "inflateParseObject" inflateParseObject;
    Layer "inflateParseUser" inflateParseUser;
    Layer "emptyResponse" emptyResponse;
    Layer "handler" (invoke h) ].

Definition beforeDelete_stack (className : value) (h : handler) : list layer :=
  [ Layer "entryLogger" (entryLogger className "beforeDelete");
    Layer "updateRequestInstallationId" updateRequestInstallationId;
    Layer "addParseResponseMethods" addParseResponseMethods;
    Layer "inflateParseObject" inflateParseObject;
    Layer "inflateParseUser" inflateParseUser;
    Layer "handler" (invoke h) ].

Definition afterDelete_stack (className : value) (h : handler) : list layer :=
  [ Layer "entryLogger" (entryLogger className "afterDelete");
    Layer "updateRequestInstallationId" updateRequestInstallationId;
    Layer "addParseResponseMethods" addParseResponseMethods;
    Layer "inflateParseObject" inflateParseObject;
    Layer "inflateParseUser" inflateParseUser;
    Layer "emptyResponse" emptyResponse;
    Layer "handler" (invoke h) ].

Definition function_stack (functionName : value) (h : cloud_function)
  : list layer :=
  [ Layer "entryLogger" (entryLogger functionName "function");
    Layer "updateRequestInstallationId" updateRequestInstallationId;
    Layer "updateRequestFunctionParams" updateRequestFunctionParams;
    Layer "addParseResponseMethods" addParseResponseMethods;
    Layer "encodeSuccessResponseObject" encodeSuccessResponseObject;
    Layer "inflateParseUser" inflateParseUser;
    Layer "handler" (settle h) ].

Definition beforeSave (className : value) (h : handler) (st : state) : state :=
  State (app_post ("/beforeSave_" +:+ ToString className)
           (beforeSave_stack className h) (app st))
        (Routes_push "beforeSave" className (Routes st)).

Definition afterSave (className : value) (h : handler) (st : state) : state :=
  State (app_post ("/afterSave_" +:+ ToString className)
           (afterSave_stack className h) (app st))
        (Routes_push "afterSave" className (Routes st)).

Definition beforeDelete (className : value) (h : handler) (st : state) : state :=
  State (app_post ("/beforeDelete_" +:+ ToString className)
           (beforeDelete_stack className h) (app st))
        (Routes_push "beforeDelete" className (Routes st)).

Definition afterDelete (className : value) (h : handler) (st : state) : state :=
  State (app_post ("/afterDelete_" +:+ ToString className)
           (afterDelete_stack className h) (app st))
        (Routes_push "afterDelete" className (Routes st)).

Definition define (functionName : value) (h : cloud_function) (st : state)
  : state :=
  State (app_post ("/function_" +:+ ToString functionName)
           (function_stack functionName h) (app st))
        (Routes_push "function" functionName (Routes st)).

(** Reading [.className] of [undefined] throws a TypeError before
    anything is registered: the result is [None]. *)
Definition inflateObjectsToClassNames {H : Type}
    (methodToWrap : value -> H -> state -> state)
    (objectOrClassName : value) (h : H) (st : state) : option state :=
  match objectOrClassName with
  | VUndefined => None
  | _ =>
      if strict_eq objectOrClassName VNull
         || negb (truthy (prop objectOrClassName "className"))
      then Some (methodToWrap objectOrClassName h st)
      else Some (methodToWrap (prop objectOrClassName "className") h st)
  end.

Definition Parse_Cloud_beforeSave := inflateObjectsToClassNames beforeSave.
Definition Parse_Cloud_afterSave := inflateObjectsToClassNames afterSave.
Definition Parse_Cloud_beforeDelete := inflateObjectsToClassNames beforeDelete.
Definition Parse_Cloud_afterDelete := inflateObjectsToClassNames afterDelete.
Definition Parse_Cloud_define := define.

(** The states the module can be in: [initial] and what the registration
    functions make of it. *)
Inductive installed : state -> Prop :=
| installed_initial : installed initial
| installed_beforeSave cn h st :
    installed st -> installed (beforeSave cn h st)
| installed_afterSave cn h st :
    installed st -> installed (afterSave cn h st)
| installed_beforeDelete cn h st :
    installed st -> installed (beforeDelete cn h st)
| installed_afterDelete cn h st :
    installed st -> installed (afterDelete cn h st)
| installed_define fn h st :
    installed st -> installed (define fn h st).

(** The stacks the registration functions build. *)
Inductive hooked : hook_kind -> list layer -> Prop :=
| hooked_beforeSave cn h : hooked BeforeSave (beforeSave_stack cn h)
| hooked_afterSave cn h : hooked AfterSave (afterSave_stack cn h)
| hooked_beforeDelete cn h : hooked BeforeDelete (beforeDelete_stack cn h)
| hooked_afterDelete cn h : hooked AfterDelete (afterDelete_stack cn h)
| hooked_function fn h : hooked Function (function_stack fn h).

(** [app.use(validateWebhookRequest); app.use(jsonParser)], then the
    routes. *)
Definition handle_request (st : state) (r : request) : context :=
  let '(c, next) :=
    run_stack [ Layer "validateWebhookRequest" validateWebhookRequest;
                Layer "jsonParser" jsonParser ] (new_context r) in
  if next then dispatch (app st) c else c.

(** The request as the layers before the handler leave it. *)
Definition trigger_request (r : request) : request :=
  req (inflateParseUser (inflateParseObject
         (updateRequestInstallationId (new_context r)).1).1).1.

Definition function_request (r : request) : request :=
  req (inflateParseUser (updateRequestFunctionParams
         (updateRequestInstallationId (new_context r)).1).1).1.

(** The route that serves a request: the first that matches. *)
Definition serving (st : state) (r : request) : option route :=
  find (fun rt => matches rt r) (app st).

End Adapter.

(** The header check of [validateWebhookRequest], as a test on requests. *)
Definition authorized (webhookKey : value) (r : request) : bool :=
  strict_eq (req_get r "X-Parse-Webhook-Key") webhookKey.

(** The context a request is in once the two [app.use] layers let it
    through. *)
Definition admitted (r : request) : context :=
  Context r None None [Enter "validateWebhookRequest"; Enter "jsonParser"].

(** A method slot that answers every call with one status-200 envelope. *)
Definition sends_envelope (f : option responder) : Prop :=
  forall data rq w, exists body,
    apply_responder f data rq w = w ++ [Sent 200 body]
    /\ is_envelope body = true.

(** What a wire may carry on a route of kind [k]: layer entries, status-200
    envelopes and, on the two after-hooks, the status-200 empty object. *)
Definition wire_ok (k : hook_kind) (e : event) : Prop :=
  match e with
  | Enter _ => True
  | Sent status body =>
      status = 200
      /\ (is_envelope body = true
          \/ (body = VObj ∅ /\ (k = AfterSave \/ k = AfterDelete)))
  end.

(** The values [data || true] replaces although they are neither
    [undefined] nor [null]. *)
Definition falsy_defined (v : value) : bool :=
  match v with
  | VUndefined | VNull => false
  | _ => negb (truthy v)
  end.

(** What a registration of kind [k] with identifier [I] does to the state. *)
Definition registers (k : hook_kind) (I : value) (stack : list layer)
    (st st' : state) : Prop :=
  entry k st' = entry k st ++ [I]
  /\ (forall k', k' <> k -> entry k' st' = entry k' st)
  /\ app st' =
     app st ++ [Route "POST" (hookKindPrefix k +:+ "_" +:+ ToString I) stack].

(** The four wrapped trigger registrations, called with [v], register the
    identifier [w]. *)
Definition registered_as `{ParseSDK} (v w : value) (h : handler) (st : state)
  : Prop :=
  Parse_Cloud_beforeSave v h st = Some (beforeSave w h st)
  /\ Parse_Cloud_afterSave v h st = Some (afterSave w h st)
  /\ Parse_Cloud_beforeDelete v h st = Some (beforeDelete w h st)
  /\ Parse_Cloud_afterDelete v h st = Some (afterDelete w h st).

(** What the calls of a handler put on the wire when [res.success] and
    [res.error] are the methods of [addParseResponseMethods]. *)
Definition plain_replies (acts : list action) : list event :=
  flat_map (fun a =>
              match a with
              | CallSuccess data => successResponse [] data
              | CallError data => errorResponse [] data
              | SetObject _ => []
              end) acts.

(** ** Sample requests and handlers *)

Definition secret : value := VStr "s3cret".

Definition post (p : string) (key : option string) (b : value) : request :=
  Request "POST" p
    (match key with
     | Some k => {[ "X-Parse-Webhook-Key" := k ]}
     | None => ∅
     end)
    b VUndefined VUndefined VUndefined VUndefined VUndefined.

Definition a_post : value :=
  VObj {[ "className" := VStr "Post"; "objectId" := VStr "1";
          "title" := VStr "a" ]}.

Definition class_Post : value := VObj {[ "className" := VStr "Post" ]}.

(** A stand-in SDK that serializes as [Parse.Object.toJSON] does: the class
    name is part of the object and of what [fromJSON] reads, and is left
    out of what [toJSON] writes. *)
Definition attributesSDK : ParseSDK := {|
  Parse_Object_fromJSON := fun json => json;
  Parse_Object_set := fun o attrs =>
    match o, attrs with
    | VObj m, VObj a => VObj (a ∪ m)
    | _, _ => o
    end;
  Parse_Object_toJSON := fun o =>
    match o with
    | VObj m => VObj (delete "className" m)
    | _ => o
    end;
  Parse_decode := fun v => v;
  Parse_encode := fun v => v
|}.

(** A handler that accepts what it is given: [res.success()]. *)
Definition accept : handler := fun _ => [CallSuccess VUndefined].

(** A handler that retitles the object and then reports success with a
    payload of its own. *)
Definition retitled : value :=
  VObj {[ "className" := VStr "Post"; "objectId" := VStr "1";
          "title" := VStr "b" ]}.

Definition retitle : handler := fun _ =>
  [SetObject retitled; CallSuccess (VStr "done")].

Definition greet : cloud_function := fun _ => Resolved (VStr "Hello world!").

(** Cloud functions whose outcome is a falsy value. *)
Definition isAdmin : cloud_function := fun _ => Resolved (VBool false).
Definition countOf : cloud_function := fun _ => Rejected (VNum 0).

(** The five kinds registered once each, over the stand-in SDK. *)
Definition hooks : state :=
  define (Parse := wireSDK) (VStr "hello") greet
    (afterDelete (Parse := wireSDK) (VStr "Post") accept
       (beforeDelete (Parse := wireSDK) (VStr "Post") accept
          (afterSave (Parse := wireSDK) (VStr "Post") retitle
             (beforeSave (Parse := wireSDK) (VStr "Post") accept initial)))).

Definition save_request (p : string) : request :=
  post p (Some "s3cret") (VObj {[ "object" := a_post ]}).

Definition update_request (p : string) : request :=
  post p (Some "s3cret")
    (VObj {[ "original" := a_post;
             "update" := VObj {[ "title" := VStr "b" ]} ]}).

(** ** The rest of the module *)

(** What the calls of a [beforeSave] handler put on the wire, [o] being
    [req.object] when the handler starts: [res.success] is the closure of
    [beforeSaveResponseMojo], [res.error] the method of
    [addParseResponseMethods]. *)
Fixpoint echo_replies `{ParseSDK} (o : value) (acts : list action)
  : list event :=
  match acts with
  | [] => []
  | CallSuccess _ :: rest =>
      successResponse [] (Parse_Object_toJSON o) ++ echo_replies o rest
  | CallError data :: rest => errorResponse [] data ++ echo_replies o rest
  | SetObject o' :: rest => echo_replies o' rest
  end.

(** How often the layer of the user's handler was entered. *)
Fixpoint handler_calls (w : list event) : nat :=
  match w with
  | [] => 0%nat
  | Enter name :: w' =>
      ((if String.eqb name "handler" then 1 else 0) + handler_calls w')%nat
  | Sent _ _ :: w' => handler_calls w'
  end.

(** The sum of the lengths of the five [Routes] entries. *)
Definition registrations (st : state) : nat :=
  (length (entry BeforeSave st) + length (entry AfterSave st)
   + length (entry BeforeDelete st) + length (entry AfterDelete st)
   + length (entry Function st))%nat.

(** [v.k = x] for any [v]: assigning a property of [undefined] or [null]
    throws a TypeError ([None]). *)
Definition assign (v : value) (k : string) (x : value) : option value :=
  match v with
  | VUndefined | VNull => None
  | _ => Some (set_prop v k x)
  end.

(** The [request] library, for one call: it calls back once with
    [(error, response, body)], or never. *)
Definition transport : Type := value -> option (value * value * value).

(** [httpRequest(options)]: the options as the call leaves them (it sets
    [options.json] on the caller's object) and the promise returned.
    [None] is the TypeError of [options.json = true] on an [options] that is
    [undefined] or [null].  When the callback throws on
    [response.text = body] the promise is never settled. *)
Definition httpRequest (Request : transport) (options : value)
  : option (value * deferred) :=
  match assign options "json" (VBool true) with
  | None => None
  | Some options =>
      Some (options,
            match Request options with
            | None => Pending
            | Some (error, response, body) =>
                if truthy error then Rejected response
                else match assign response "text" body with
                     | Some response => Resolved response
                     | None => Pending
                     end
            end)
  end.

(** A transport that answers every call with status 200 and a fixed body,
    and one that fails without a response. *)
Definition answering : transport := fun _ =>
  Some (VNull, VObj {[ "statusCode" := VNum 200 ]}, VStr "pong").

Definition unreachable : transport := fun _ =>
  Some (VStr "ECONNREFUSED", VUndefined, VUndefined).

(** A signed-in user as Parse sends it, without a class name. *)
Definition a_user : value := VObj {[ "objectId" := VStr "u1" ]}.

Definition user_request (p : string) : request :=
  post p (Some "s3cret")
    (VObj {[ "object" := a_post; "user" := a_user; "master" := VBool true;
             "installationId" := VStr "i-42";
             "params" := VObj {[ "n" := VNum 3 ]} ]}).


(** A [beforeSave] handler that refuses the save. *)
Definition refuse : handler := fun _ => [CallError (VStr "No edits.")].

(** ** Properties *)

Section Properties.
Context {Parse : ParseSDK}.
Variable webhookKey : value.

Lemma is_envelope_success v : is_envelope (VObj {[ "success" := v ]}) = true.
Proof. reflexivity. Qed.

Lemma is_envelope_error v : is_envelope (VObj {[ "error" := v ]}) = true.
Proof. reflexivity. Qed.

Lemma sends_envelope_success :
  sends_envelope (Some (fun data _ res => successResponse res data)).
Proof. intros d rq w. eexists. split; [reflexivity | apply is_envelope_success]. Qed.

Lemma sends_envelope_error :
  sends_envelope (Some (fun data _ res => errorResponse res data)).
Proof. intros d rq w. eexists. split; [reflexivity | apply is_envelope_error]. Qed.

(** A handler only ever appends status-200 envelopes to the wire. *)
Lemma perform_all acts : forall c,
  sends_envelope (res_success c) -> sends_envelope (res_error c) ->
  exists ext,
    wire (fold_left perform acts c) = wire c ++ ext
    /\ Forall (fun e => exists b, e = Sent 200 b /\ is_envelope b = true) ext.
Proof.
  induction acts as [|a acts IH]; intros c Hs He; simpl.
  - exists []. rewrite app_nil_r. split; constructor.
  - assert (Hstep : exists ext1,
               wire (perform c a) = wire c ++ ext1
               /\ Forall (fun e => exists b, e = Sent 200 b
                                            /\ is_envelope b = true) ext1
               /\ res_success (perform c a) = res_success c
               /\ res_error (perform c a) = res_error c).
    { destruct a as [d|d|o]; simpl.
      - destruct (Hs d (req c) (wire c)) as (b & -> & Hb).
        exists [Sent 200 b]. repeat split. repeat constructor. eauto.
      - destruct (He d (req c) (wire c)) as (b & -> & Hb).
        exists [Sent 200 b]. repeat split. repeat constructor. eauto.
      - exists []. rewrite app_nil_r. repeat split. constructor. }
    destruct Hstep as (ext1 & Hw1 & Hok1 & Hs1 & He1).
    destruct (IH (perform c a)) as (ext2 & Hw2 & Hok2).
    { by rewrite Hs1. } { by rewrite He1. }
    exists (ext1 ++ ext2). rewrite Hw2, Hw1, app_assoc.
    split; auto using Forall_app_2.
Qed.

(** Changes of [req.object] leave the wire and the slots alone; the last
    one decides the object. *)
Lemma set_objects_run objs : forall c,
  wire (fold_left perform (map SetObject objs) c) = wire c
  /\ res_success (fold_left perform (map SetObject objs) c) = res_success c
  /\ res_error (fold_left perform (map SetObject objs) c) = res_error c
  /\ req_object (req (fold_left perform (map SetObject objs) c))
     = default (req_object (req c)) (last objs).
Proof.
  induction objs as [|o objs IH]; intros c; [done|].
  change (fold_left perform (map SetObject (o :: objs)) c)
    with (fold_left perform (map SetObject objs) (on_req (with_object o) c)).
  destruct (IH (on_req (with_object o) c)) as (Hw & Hs & He & Ho).
  rewrite Hw, Hs, He, Ho. repeat split.
  destruct objs as [|o' objs]; [reflexivity|].
  rewrite last_cons_cons.
  destruct (last (o' :: objs)) eqn:E; [reflexivity|].
  by apply last_None in E.
Qed.

Lemma handle_request_admitted st r :
  authorized webhookKey r = true ->
  handle_request webhookKey st r = dispatch (app st) (admitted r).
Proof.
  unfold authorized, handle_request. simpl.
  unfold validateWebhookRequest at 1. simpl. intros ->. reflexivity.
Qed.

Lemma handle_request_refused st r :
  authorized webhookKey r = false ->
  handle_request webhookKey st r =
  Context r None None
    [Enter "validateWebhookRequest";
     Sent 200 (VObj {[ "error" := VStr "Unauthorized Request." ]})].
Proof.
  unfold authorized, handle_request. simpl.
  unfold validateWebhookRequest at 1. simpl. intros ->. reflexivity.
Qed.

(** The router hands the request to the first matching route, and to
    no other when that route's stack ends without [next()]. *)
Lemma dispatch_serving routes c rt :
  find (fun rt => matches rt (req c)) routes = Some rt ->
  (run_stack (route_stack rt) c).2 = false ->
  dispatch routes c = (run_stack (route_stack rt) c).1.
Proof.
  induction routes as [|rt' routes IH]; simpl; [done|].
  destruct (matches rt' (req c)) eqn:Hm.
  - intros [= ->] Hn. destruct (run_stack (route_stack rt) c) as [c' n].
    simpl in *. by subst.
  - auto.
Qed.

Lemma dispatch_unserved routes c :
  find (fun rt => matches rt (req c)) routes = None ->
  dispatch routes c = c.
Proof.
  induction routes as [|rt' routes IH]; simpl; [done|].
  destruct (matches rt' (req c)); [done | auto].
Qed.

Ltac run_layers :=
  unfold run_stack, invoke, enter, on_wire; simpl;
  rewrite <- ?app_assoc; reflexivity.

Lemma beforeSave_run cn h c :
  run_stack (beforeSave_stack cn h) c =
  (fold_left perform (h (trigger_request (req c)))
     (Context (trigger_request (req c))
        (Some (fun _ rq res =>
                 successResponse res (Parse_Object_toJSON (req_object rq))))
        (Some (fun data _ res => errorResponse res data))
        (wire c ++ [Enter "entryLogger"; Enter "updateRequestInstallationId";
                    Enter "addParseResponseMethods"; Enter "inflateParseObject";
                    Enter "inflateParseUser"; Enter "beforeSaveResponseMojo";
                    Enter "handler"])),
   false).
Proof. unfold beforeSave_stack. run_layers. Qed.

Lemma afterSave_run cn h c :
  run_stack (afterSave_stack cn h) c =
  (fold_left perform (h (trigger_request (req c)))
     (Context (trigger_request (req c))
        (Some (fun data _ res => successResponse res data))
        (Some (fun data _ res => errorResponse res data))
        (wire c ++ [Enter "entryLogger"; Enter "updateRequestInstallationId";
                    Enter "addParseResponseMethods"; Enter "inflateParseObject";
                    Enter "inflateParseUser"; Enter "emptyResponse";
                    Sent 200 (VObj ∅); Enter "handler"])),
   false).
Proof. unfold afterSave_stack, emptyResponse, status_send. run_layers. Qed.

Lemma beforeDelete_run cn h c :
  run_stack (beforeDelete_stack cn h) c =
  (fold_left perform (h (trigger_request (req c)))
     (Context (trigger_request (req c))
        (Some (fun data _ res => successResponse res data))
        (Some (fun data _ res => errorResponse res data))
        (wire c ++ [Enter "entryLogger"; Enter "updateRequestInstallationId";
                    Enter "addParseResponseMethods"; Enter "inflateParseObject";
                    Enter "inflateParseUser"; Enter "handler"])),
   false).
Proof. unfold beforeDelete_stack. run_layers. Qed.

Lemma afterDelete_run cn h c :
  run_stack (afterDelete_stack cn h) c =
  (fold_left perform (h (trigger_request (req c)))
     (Context (trigger_request (req c))
        (Some (fun data _ res => successResponse res data))
        (Some (fun data _ res => errorResponse res data))
        (wire c ++ [Enter "entryLogger"; Enter "updateRequestInstallationId";
                    Enter "addParseResponseMethods"; Enter "inflateParseObject";
                    Enter "inflateParseUser"; Enter "emptyResponse";
                    Sent 200 (VObj ∅); Enter "handler"])),
   false).
Proof. unfold afterDelete_stack, emptyResponse, status_send. run_layers. Qed.

Lemma function_run fn h c :
  run_stack (function_stack fn h) c =
  settle h
    (Context (function_request (req c))
       (Some (fun data _ res => successResponse res (Parse_encode data)))
       (Some (fun data _ res => errorResponse res data))
       (wire c ++ [Enter "entryLogger"; Enter "updateRequestInstallationId";
                   Enter "updateRequestFunctionParams";
                   Enter "addParseResponseMethods";
                   Enter "encodeSuccessResponseObject";
                   Enter "inflateParseUser"; Enter "handler"])).
Proof.
  unfold function_stack, run_stack, enter, on_wire; simpl.
  rewrite <- ?app_assoc.
  match goal with |- (let '(c', next) := ?x in _) = ?y =>
    change y with x; by destruct x as [? []] eqn:E;
    unfold settle in E; destruct (h _); inversion E
  end.
Qed.

(** An authorized request goes through the stack of the route serving
    it, and through nothing after it when the stack ends without
    [next()]. *)
Lemma served st r rt c' :
  authorized webhookKey r = true ->
  serving st r = Some rt ->
  run_stack (route_stack rt) (admitted r) = (c', false) ->
  handle_request webhookKey st r = c'.
Proof.
  intros Ha Hs Hr. rewrite (handle_request_admitted _ _ Ha).
  rewrite (dispatch_serving (app st) (admitted r) rt Hs); by rewrite Hr.
Qed.

(** User inflation and the [master] flag leave [req.object] as object
    inflation set it. *)
Lemma trigger_request_object r :
  req_object (trigger_request r) =
  if truthy (prop (req_body r) "original") && truthy (prop (req_body r) "update")
  then Parse_Object_set (Parse_Object_fromJSON (prop (req_body r) "original"))
         (Parse_decode (prop (req_body r) "update"))
  else Parse_Object_fromJSON (prop (req_body r) "object").
Proof.
  unfold trigger_request, inflateParseUser. simpl.
  destruct (truthy (prop (req_body r) "user")); reflexivity.
Qed.

Lemma kind_name_inj k k' : kind_name k = kind_name k' -> k = k'.
Proof. destruct k, k'; simpl; intros E; try reflexivity; discriminate E. Qed.

(** The five keys of [Routes] are there from the start and stay. *)
Lemma installed_keys st k : installed st -> is_Some (Routes st !! kind_name k).
Proof.
  induction 1 as [|cn h st _ IH|cn h st _ IH|cn h st _ IH|cn h st _ IH
                  |fn h st _ IH].
  all: try (simpl; unfold Routes_push; rewrite lookup_alter;
            case_decide as E; [rewrite fmap_is_Some, E|]; exact IH).
  destruct k; vm_compute; eauto.
Qed.

Lemma push_registers k I stack st routes :
  is_Some (Routes st !! kind_name k) ->
  routes = app_post (hookKindPrefix k +:+ "_" +:+ ToString I) stack (app st) ->
  registers k I stack st
    (State routes (Routes_push (kind_name k) I (Routes st))).
Proof.
  intros [l Hl] ->. unfold registers, entry, Routes_push. simpl.
  split; [|split].
  - rewrite lookup_alter_eq, Hl. reflexivity.
  - intros k' Hk. rewrite lookup_alter_ne; [done|].
    intros E. apply Hk. symmetry. by apply kind_name_inj.
  - reflexivity.
Qed.

(** *** The webhook key *)

(** C1.  A request whose [X-Parse-Webhook-Key] header is not strictly
    equal to the configured key (a different string, or no header at all)
    is answered [{error: "Unauthorized Request."}] with status 200,
    whatever routes are mounted: the only layer entered is
    [validateWebhookRequest], so no route stack and no handler runs, and
    the request is left as it came. *)
Theorem unauthorized_request_rejected st r :
  authorized webhookKey r = false ->
  handle_request webhookKey st r =
    Context r None None
      [Enter "validateWebhookRequest";
       Sent 200 (VObj {[ "error" := VStr "Unauthorized Request." ]})]
  /\ responses (wire (handle_request webhookKey st r)) =
     [(200, VObj {[ "error" := VStr "Unauthorized Request." ]})]
  /\ (forall name, In (Enter name) (wire (handle_request webhookKey st r)) ->
                   name = "validateWebhookRequest").
Proof.
  intros Hr. rewrite (handle_request_refused st r Hr).
  split; [reflexivity|]. split; [reflexivity|].
  simpl. intros name [E|[E|[]]]; [by inversion E | discriminate E].
Qed.

(** *** The envelope senders *)

(** C5 (as the code has it).  [successResponse] and [errorResponse] send
    status 200 with [{success: v || true}] and [{error: v || true}]: a
    truthy [v] is sent as it is and every falsy [v] is replaced by [true].
    This is the [v ?? true] of the specification except on [false], [0]
    and the empty string, which are replaced as well. *)
Theorem envelope_senders res v :
  successResponse res v =
    res ++ [Sent 200 (VObj {[ "success" := if truthy v then v else VBool true ]})]
  /\ errorResponse res v =
     res ++ [Sent 200 (VObj {[ "error" := if truthy v then v else VBool true ]})]
  /\ or_true v = (if falsy_defined v then VBool true else nullish_or_true v).
Proof.
  split; [reflexivity|]. split; [reflexivity|].
  unfold or_true, falsy_defined.
  destruct v as [| |b|n|s|m]; simpl; try reflexivity.
  - by destruct b.
  - by destruct (n =? 0).
  - by destruct (String.eqb s "").
Qed.

(** *** Registration *)

(** C9.  In every state the module can reach, each of the five
    registration functions, called with identifier [I], appends [I] at
    the end of the [Routes] entry of its kind, leaves the other entries
    as they are, and mounts one more route, bound to POST at the path
    [hookKindPrefix k + "_" + I], after the routes already there. *)
Theorem registration_records_and_mounts st I h f :
  installed st ->
  registers BeforeSave I (beforeSave_stack I h) st (beforeSave I h st)
  /\ registers AfterSave I (afterSave_stack I h) st (afterSave I h st)
  /\ registers BeforeDelete I (beforeDelete_stack I h) st (beforeDelete I h st)
  /\ registers AfterDelete I (afterDelete_stack I h) st (afterDelete I h st)
  /\ registers Function I (function_stack I f) st (define I f st).
Proof.
  intros Hst.
  refine (conj _ (conj _ (conj _ (conj _ _))));
    (apply push_registers; [by apply installed_keys | reflexivity]).
Qed.

(** C8 (as the code has it).  The four trigger registrations of
    [Parse.Cloud] are wrapped by [inflateObjectsToClassNames]: called
    with a value whose [className] is a non-empty string they register
    exactly what they register for that string, and called with any
    other value but [undefined] whose [className] is missing or falsy
    they register the value itself.  [Parse.Cloud.define] is not wrapped:
    it registers the value it is given, whatever it carries. *)
Theorem class_name_derivation v h f st :
  (forall s, prop v "className" = VStr s -> s <> "" ->
             registered_as v (VStr s) h st
             /\ registered_as (VStr s) (VStr s) h st)
  /\ (v <> VUndefined -> truthy (prop v "className") = false ->
      registered_as v v h st)
  /\ Parse_Cloud_define v f st =
     State (app st ++ [Route "POST" ("/function_" +:+ ToString v)
                         (function_stack v f)])
           (Routes_push "function" v (Routes st)).
Proof.
  split; [|split; [|reflexivity]].
  - intros s Hs Hne.
    assert (Ht : truthy (VStr s) = true).
    { simpl. destruct (String.eqb_spec s ""); [contradiction | reflexivity]. }
    assert (Hobj : exists m, v = VObj m).
    { destruct v; try discriminate Hs. eauto. }
    destruct Hobj as [m ->].
    unfold registered_as, Parse_Cloud_beforeSave, Parse_Cloud_afterSave,
      Parse_Cloud_beforeDelete, Parse_Cloud_afterDelete,
      inflateObjectsToClassNames.
    rewrite Hs, Ht. simpl. by repeat split.
  - intros Hv Hf.
    unfold registered_as, Parse_Cloud_beforeSave, Parse_Cloud_afterSave,
      Parse_Cloud_beforeDelete, Parse_Cloud_afterDelete,
      inflateObjectsToClassNames.
    rewrite Hf, orb_true_r. by destruct v.
Qed.

(** *** The trigger routes *)

(** The handler of a trigger route is called on the inflated request,
    after the layers before it. *)
Lemma trigger_handler_called st r rt cn h :
  authorized webhookKey r = true ->
  serving st r = Some rt ->
  In (route_stack rt)
     [beforeSave_stack cn h; afterSave_stack cn h;
      beforeDelete_stack cn h; afterDelete_stack cn h] ->
  exists c, handle_request webhookKey st r = (invoke h c).1
            /\ req c = trigger_request r.
Proof.
  intros Ha Hs Hin. simpl in Hin.
  destruct Hin as [E|[E|[E|[E|[]]]]]; symmetry in E;
    eexists (Context (trigger_request r) _ _ _);
    (split; [eapply served; eauto; rewrite E | reflexivity]).
  - apply beforeSave_run.
  - apply afterSave_run.
  - apply beforeDelete_run.
  - apply afterDelete_run.
Qed.

(** C7.  On every save and delete route the handler is called on a
    request whose [object] was set by object inflation: when the body
    holds both [original] and [update] (serialized objects, so truthy
    values) it is the object rebuilt from [original] with the decoded
    [update] applied through [set]; when one of the two is missing it is
    the object rebuilt from the body's [object] field.  The test the code
    makes is the truthiness of both fields. *)
Theorem object_inflation st r rt cn h :
  authorized webhookKey r = true ->
  serving st r = Some rt ->
  In (route_stack rt)
     [beforeSave_stack cn h; afterSave_stack cn h;
      beforeDelete_stack cn h; afterDelete_stack cn h] ->
  exists c,
    handle_request webhookKey st r = (invoke h c).1
    /\ req_object (req c) =
       (if truthy (prop (req_body r) "original")
           && truthy (prop (req_body r) "update")
        then Parse_Object_set
               (Parse_Object_fromJSON (prop (req_body r) "original"))
               (Parse_decode (prop (req_body r) "update"))
        else Parse_Object_fromJSON (prop (req_body r) "object"))
    /\ (forall o u,
          prop (req_body r) "original" = VObj o ->
          prop (req_body r) "update" = VObj u ->
          req_object (req c) =
            Parse_Object_set (Parse_Object_fromJSON (VObj o))
                             (Parse_decode (VObj u)))
    /\ (prop (req_body r) "original" = VUndefined
        \/ prop (req_body r) "update" = VUndefined ->
        req_object (req c) = Parse_Object_fromJSON (prop (req_body r) "object")).
Proof.
  intros Ha Hs Hin.
  destruct (trigger_handler_called st r rt cn h Ha Hs Hin) as (c & Hc & Hq).
  exists c. split; [exact Hc|]. rewrite Hq, trigger_request_object.
  split; [reflexivity|]. split.
  - intros o u -> ->. reflexivity.
  - intros [-> | ->]; simpl; [reflexivity|].
    by rewrite andb_false_r.
Qed.

(** What a [beforeSave] handler that changes [req.object] and then calls
    [res.success(x)] leaves on the wire. *)
Lemma beforeSave_success st r rt cn h objs x :
  authorized webhookKey r = true ->
  serving st r = Some rt ->
  route_stack rt = beforeSave_stack cn h ->
  h (trigger_request r) = map SetObject objs ++ [CallSuccess x] ->
  responses (wire (handle_request webhookKey st r)) =
  [(200, VObj {[ "success" :=
       or_true (Parse_Object_toJSON
                  (default (req_object (trigger_request r)) (last objs))) ]})].
Proof.
  intros Ha Hs Hst Hh.
  erewrite served; eauto; [|rewrite Hst; apply beforeSave_run].
  simpl req. rewrite Hh, fold_left_app. simpl fold_left.
  match goal with |- context [fold_left perform (map SetObject objs) ?c] =>
    destruct (set_objects_run objs c) as (Hw & Hsu & _ & Ho);
    set (c' := fold_left perform (map SetObject objs) c) in *
  end.
  unfold perform, call, on_wire. simpl wire.
  rewrite Hsu, Hw. cbv beta iota delta [apply_responder res_success wire].
  rewrite Ho. reflexivity.
Qed.

(** C4 (as the code has it).  On a [beforeSave] route, for a body without
    [original] whose [object] is [O], a handler that (after changing
    [req.object] or not) calls [res.success()] without argument is answered
    [{success: J}], status 200, with [J] the [toJSON] of [req.object] as
    it is at the call; without any change that is [toJSON(fromJSON(O))],
    what the SDK writes for the object it rebuilt from [O].  The code sends
    that serialization and nothing makes it [O] again. *)
Theorem beforeSave_success_echoes_object st r rt cn h O objs :
  authorized webhookKey r = true ->
  serving st r = Some rt ->
  route_stack rt = beforeSave_stack cn h ->
  prop (req_body r) "original" = VUndefined ->
  prop (req_body r) "object" = O ->
  h (trigger_request r) = map SetObject objs ++ [CallSuccess VUndefined] ->
  let J := Parse_Object_toJSON (default (Parse_Object_fromJSON O) (last objs)) in
  truthy J = true ->
  responses (wire (handle_request webhookKey st r)) =
    [(200, VObj {[ "success" := J ]})]
  /\ (objs = [] ->
      responses (wire (handle_request webhookKey st r)) =
        [(200, VObj {[ "success" :=
                         Parse_Object_toJSON (Parse_Object_fromJSON O) ]})]).
Proof.
  intros Ha Hs Hst Horig HO Hh J HJ.
  assert (E : responses (wire (handle_request webhookKey st r)) =
              [(200, VObj {[ "success" := J ]})]).
  { rewrite (beforeSave_success st r rt cn h objs VUndefined Ha Hs Hst Hh).
    rewrite trigger_request_object, Horig, HO. simpl andb. cbv iota.
    fold J. unfold or_true. by rewrite HJ. }
  split; [exact E|].
  intros ->. rewrite E. reflexivity.
Qed.

(** C10.  On a [beforeSave] route the [res.success] the handler sees
    takes no account of its argument: whatever payload [x] the handler
    passes, the reply is [{success: J}] with [J] the [toJSON] of
    [req.object] at the call, and so is not [{success: x}] for any [x]
    other than [J]. *)
Theorem beforeSave_success_ignores_payload st r rt cn h objs x :
  authorized webhookKey r = true ->
  serving st r = Some rt ->
  route_stack rt = beforeSave_stack cn h ->
  h (trigger_request r) = map SetObject objs ++ [CallSuccess x] ->
  let J := Parse_Object_toJSON
             (default (req_object (trigger_request r)) (last objs)) in
  truthy J = true ->
  responses (wire (handle_request webhookKey st r)) =
    [(200, VObj {[ "success" := J ]})]
  /\ (x <> J ->
      responses (wire (handle_request webhookKey st r)) <>
        [(200, VObj {[ "success" := x ]})]).
Proof.
  intros Ha Hs Hst Hh J HJ.
  rewrite (beforeSave_success st r rt cn h objs x Ha Hs Hst Hh).
  fold J. unfold or_true. rewrite HJ. split; [reflexivity|].
  intros Hx E. apply Hx. symmetry.
  assert (E' : ({[ "success" := J ]} : gmap string value) !! "success"
               = ({[ "success" := x ]} : gmap string value) !! "success")
    by congruence.
  rewrite !lookup_singleton_eq in E'. congruence.
Qed.

Lemma perform_plain acts : forall c,
  res_success c = Some (fun data _ res => successResponse res data) ->
  res_error c = Some (fun data _ res => errorResponse res data) ->
  wire (fold_left perform acts c) = wire c ++ plain_replies acts.
Proof.
  induction acts as [|a acts IH]; intros c Hs He; simpl.
  - by rewrite app_nil_r.
  - rewrite IH.
    + destruct a; simpl; unfold apply_responder; rewrite ?Hs, ?He;
        unfold successResponse, errorResponse, status_send; simpl;
        by rewrite <- ?app_assoc.
    + by destruct a.
    + by destruct a.
Qed.

(** C3 (as the code has it).  On every [afterSave] and [afterDelete]
    route an authorized request is answered by [emptyResponse] with
    status 200 and the bare empty object [{}], not inside a [success]
    envelope.  That reply is on the wire before the handler is entered;
    the handler is then called on the inflated request, and what it
    passes to [res.success] or [res.error] lands after the reply already
    sent, so the client receives [{}] whatever the handler does. *)
Theorem after_hooks_reply_empty st r rt cn h :
  authorized webhookKey r = true ->
  serving st r = Some rt ->
  route_stack rt = afterSave_stack cn h
  \/ route_stack rt = afterDelete_stack cn h ->
  wire (handle_request webhookKey st r) =
    [Enter "validateWebhookRequest"; Enter "jsonParser"; Enter "entryLogger";
     Enter "updateRequestInstallationId"; Enter "addParseResponseMethods";
     Enter "inflateParseObject"; Enter "inflateParseUser";
     Enter "emptyResponse"; Sent 200 (VObj ∅); Enter "handler"]
    ++ plain_replies (h (trigger_request r))
  /\ transmitted (wire (handle_request webhookKey st r)) = Some (200, VObj ∅).
Proof.
  intros Ha Hs Hst.
  assert (E : wire (handle_request webhookKey st r) =
    [Enter "validateWebhookRequest"; Enter "jsonParser"; Enter "entryLogger";
     Enter "updateRequestInstallationId"; Enter "addParseResponseMethods";
     Enter "inflateParseObject"; Enter "inflateParseUser";
     Enter "emptyResponse"; Sent 200 (VObj ∅); Enter "handler"]
    ++ plain_replies (h (trigger_request r))).
  { destruct Hst as [Hst|Hst];
      (erewrite served; eauto;
       [|rewrite Hst; first [apply afterSave_run | apply afterDelete_run]]);
      by rewrite perform_plain. }
  split; [exact E|]. by rewrite E.
Qed.

(** *** The function routes *)

Lemma settle_ends h c : settle h c = ((settle h c).1, false).
Proof. unfold settle. by destruct (h (req c)). Qed.

(** C2 (as the code has it).  On every function route the reply follows
    the promise the handler returns for the inflated request: resolved
    with [V] it is [{success: encode(V) || true}], rejected with [E] it is
    [{error: E || true}], both with status 200, and nothing is sent while
    the promise is pending.  So [encode(V)] and [E] are sent as they are
    when they are truthy, and replaced by [true] when they are falsy. *)
Theorem function_reply st r rt fn h :
  authorized webhookKey r = true ->
  serving st r = Some rt ->
  route_stack rt = function_stack fn h ->
  responses (wire (handle_request webhookKey st r)) =
    match h (function_request r) with
    | Resolved V => [(200, VObj {[ "success" := or_true (Parse_encode V) ]})]
    | Rejected E => [(200, VObj {[ "error" := or_true E ]})]
    | Pending => []
    end
  /\ (forall V, h (function_request r) = Resolved V ->
                truthy (Parse_encode V) = true ->
                responses (wire (handle_request webhookKey st r)) =
                  [(200, VObj {[ "success" := Parse_encode V ]})])
  /\ (forall E, h (function_request r) = Rejected E ->
                truthy E = true ->
                responses (wire (handle_request webhookKey st r)) =
                  [(200, VObj {[ "error" := E ]})]).
Proof.
  intros Ha Hs Hst.
  assert (E : responses (wire (handle_request webhookKey st r)) =
    match h (function_request r) with
    | Resolved V => [(200, VObj {[ "success" := or_true (Parse_encode V) ]})]
    | Rejected E => [(200, VObj {[ "error" := or_true E ]})]
    | Pending => []
    end).
  { erewrite served; eauto;
      [|rewrite Hst, function_run; apply settle_ends].
    unfold settle. simpl req.
    by destruct (h (function_request r)). }
  split; [exact E|]. rewrite E. unfold or_true.
  split; [intros V -> ->|intros e -> ->]; reflexivity.
Qed.

(** *** Every reply *)

Lemma hooked_run k stack c :
  hooked k stack ->
  exists c' ext,
    run_stack stack c = (c', false)
    /\ wire c' = wire c ++ ext
    /\ Forall (wire_ok k) ext.
Proof.
  assert (Hok : forall k ext,
    Forall (fun e => exists b, e = Sent 200 b /\ is_envelope b = true) ext ->
    Forall (wire_ok k) ext).
  { intros k0 ext Hext. eapply Forall_impl; [exact Hext|].
    intros e (b & -> & Hb). simpl. auto. }
  assert (Hmojo : sends_envelope
    (Some (fun (_ : value) rq res =>
             successResponse res (Parse_Object_toJSON (req_object rq))))).
  { intros d rq w. eexists. split; [reflexivity | apply is_envelope_success]. }
  destruct 1 as [cn h|cn h|cn h|cn h|fn h].
  1: rewrite beforeSave_run. 2: rewrite afterSave_run.
  3: rewrite beforeDelete_run. 4: rewrite afterDelete_run.
  1-4: match goal with |- context [fold_left perform ?acts ?c0] =>
         destruct (perform_all acts c0) as (ext & Hw & Hext);
           [first [exact Hmojo | exact sends_envelope_success]
           |exact sends_envelope_error|]
       end;
       eexists _, _; (split; [reflexivity|]); rewrite Hw; simpl wire;
       rewrite <- app_assoc; (split; [reflexivity|]);
       (apply Forall_app_2; [|by apply Hok]);
       repeat (apply List.Forall_cons;
               [first [exact I | simpl; split; [reflexivity | right; auto]]|]);
       apply List.Forall_nil.
  - rewrite function_run, settle_ends. unfold settle. simpl req.
    destruct (h (function_request (req c))) as [V|E|];
      eexists _, _; (split; [reflexivity|]);
      cbv beta iota delta [fst call on_wire apply_responder wire res_success
                           res_error req successResponse errorResponse
                           status_send];
      rewrite <- ?app_assoc; (split; [reflexivity|]);
      repeat (apply List.Forall_cons;
              [first [exact I | simpl; split; [reflexivity | left; reflexivity]]|]);
      apply List.Forall_nil.
Qed.

Lemma installed_hooked st :
  installed st ->
  Forall (fun rt => exists k, hooked k (route_stack rt)) (app st).
Proof.
  induction 1; simpl; unfold app_post;
    [constructor | apply Forall_app_2; [assumption|]..];
    repeat constructor; eexists; constructor.
Qed.

Lemma find_Forall {A} (P : A -> Prop) f (l : list A) x :
  Forall P l -> find f l = Some x -> P x.
Proof.
  induction 1 as [|y l Hy _ IH]; simpl; [done|].
  destruct (f y); [by intros [= <-] | exact IH].
Qed.

(** C6 (as the code has it).  In every state the module can reach and
    for every request, each reply put on the wire has status 200, and its
    body holds exactly one of the keys [success] and [error], with one
    exception: the bare [{}] of [emptyResponse], which holds neither and
    is sent on the routes of [afterSave] and [afterDelete] only. *)
Theorem replies_status_200 st r :
  installed st ->
  forall status body,
    In (Sent status body) (wire (handle_request webhookKey st r)) ->
    status = 200
    /\ (is_envelope body = true
        \/ (body = VObj ∅
            /\ exists rt, serving st r = Some rt
                          /\ (hooked AfterSave (route_stack rt)
                              \/ hooked AfterDelete (route_stack rt)))).
Proof.
  intros Hst status body Hin.
  destruct (authorized webhookKey r) eqn:Ha.
  - rewrite (handle_request_admitted _ _ Ha) in Hin.
    destruct (serving st r) as [rt|] eqn:Hs.
    + destruct (find_Forall _ _ _ _ (installed_hooked st Hst) Hs) as [k Hk].
      destruct (hooked_run k _ (admitted r) Hk) as (c' & ext & Hrun & Hw & Hok).
      rewrite (dispatch_serving (app st) (admitted r) rt Hs) in Hin;
        [|by rewrite Hrun].
      rewrite Hrun in Hin. simpl fst in Hin. rewrite Hw in Hin.
      apply in_app_or in Hin. destruct Hin as [Hin|Hin].
      * simpl in Hin. destruct Hin as [E|[E|[]]]; discriminate E.
      * rewrite Forall_forall in Hok.
        apply list_elem_of_In, Hok in Hin. simpl in Hin.
        destruct Hin as [-> [He|[-> Hk']]]; split; auto.
        right. split; [reflexivity|]. exists rt. split; [reflexivity|].
        destruct Hk' as [-> | ->]; auto.
    + rewrite (dispatch_unserved (app st) (admitted r) Hs) in Hin.
      simpl in Hin. destruct Hin as [E|[E|[]]]; discriminate E.
  - rewrite (handle_request_refused _ _ Ha) in Hin. simpl in Hin.
    destruct Hin as [E|[E|[]]]; [discriminate E|].
    inversion E; subst. auto.
Qed.

End Properties.

(** ** Further properties of the module *)

Section Behaviour.
Context {Parse : ParseSDK}.
Variable webhookKey : value.

(** *** The key check at its edges *)

(** X1.  When [PARSE_WEBHOOK_KEY] is not set the key is [undefined], and
    the check [req.get(...) !== webhookKey] lets through exactly the
    requests that carry no [X-Parse-Webhook-Key] header: such a request goes
    on to the routes, and a request with the header, whatever its value, is
    answered "Unauthorized Request.". *)
Theorem unset_key_admits_headerless st r :
  (req_headers r !! "X-Parse-Webhook-Key" = None ->
   handle_request VUndefined st r = dispatch (app st) (admitted r))
  /\ (forall s, req_headers r !! "X-Parse-Webhook-Key" = Some s ->
      handle_request VUndefined st r =
        Context r None None
          [Enter "validateWebhookRequest";
           Sent 200 (VObj {[ "error" := VStr "Unauthorized Request." ]})]).
Proof.
  split.
  - intros Hh. apply handle_request_admitted.
    unfold authorized, req_get. by rewrite Hh.
  - intros s Hh. apply handle_request_refused.
    unfold authorized, req_get. by rewrite Hh.
Qed.

(** *** The routes and the table *)

Lemma find_app_Some {A} f (l l' : list A) x :
  find f l = Some x -> find f (l ++ l') = Some x.
Proof.
  induction l as [|y l IH]; simpl; [done|]. destruct (f y); [done | exact IH].
Qed.

(** The link between the table and the mounted routes that every
    registration keeps. *)
Lemma registers_keeps_link k I stack st st' :
  registers k I stack st st' -> hooked k stack ->
  (forall k0 I0, In I0 (entry k0 st) ->
     exists stack0,
       In (Route "POST" (hookKindPrefix k0 +:+ "_" +:+ ToString I0) stack0) (app st)
       /\ hooked k0 stack0) ->
  (forall rt, In rt (app st) ->
     exists k0 I0,
       In I0 (entry k0 st)
       /\ route_method rt = "POST"
       /\ route_path rt = hookKindPrefix k0 +:+ "_" +:+ ToString I0
       /\ hooked k0 (route_stack rt)) ->
  length (app st) = registrations st ->
  (forall k0 I0, In I0 (entry k0 st') ->
     exists stack0,
       In (Route "POST" (hookKindPrefix k0 +:+ "_" +:+ ToString I0) stack0) (app st')
       /\ hooked k0 stack0)
  /\ (forall rt, In rt (app st') ->
     exists k0 I0,
       In I0 (entry k0 st')
       /\ route_method rt = "POST"
       /\ route_path rt = hookKindPrefix k0 +:+ "_" +:+ ToString I0
       /\ hooked k0 (route_stack rt))
  /\ length (app st') = registrations st'.
Proof.
  intros (Hsame & Hother & Happ) Hk H1 H2 H3.
  assert (Hmono : forall k0 I0, In I0 (entry k0 st) -> In I0 (entry k0 st')).
  { intros k0 I0 Hin.
    destruct (String.eqb_spec (kind_name k0) (kind_name k)) as [E|E].
    - apply kind_name_inj in E. subst k0. rewrite Hsame.
      apply in_or_app. by left.
    - rewrite Hother; [done|]. by intros ->. }
  split; [|split].
  - intros k0 I0 Hin. rewrite Happ.
    destruct (String.eqb_spec (kind_name k0) (kind_name k)) as [E|E].
    + apply kind_name_inj in E. subst k0. rewrite Hsame in Hin.
      apply in_app_or in Hin. destruct Hin as [Hin|[<-|[]]].
      * destruct (H1 _ _ Hin) as (s0 & Hs0 & Hh0).
        exists s0. split; [apply in_or_app; by left | done].
      * exists stack. split; [|done]. apply in_or_app. right. by left.
    + rewrite Hother in Hin by (by intros ->).
      destruct (H1 _ _ Hin) as (s0 & Hs0 & Hh0).
      exists s0. split; [apply in_or_app; by left | done].
  - intros rt. rewrite Happ. intros Hin. apply in_app_or in Hin.
    destruct Hin as [Hin|[<-|[]]].
    + destruct (H2 _ Hin) as (k0 & I0 & HI & Hrest).
      exists k0, I0. split; [by apply Hmono | done].
    + exists k, I. split; [|done]. rewrite Hsame. apply in_or_app. right. by left.
  - rewrite Happ, length_app. simpl. rewrite H3. unfold registrations.
    destruct k; rewrite Hsame, !Hother by discriminate;
      rewrite length_app; simpl; lia.
Qed.

(** X3.  In every state the module can reach the [Routes] table and the
    mounted routes say the same: every identifier listed under a kind has
    a route bound to POST at the path of that kind and identifier, with the
    stack of that kind; every mounted route is bound to POST at such a path
    for an identifier listed under its kind; and there are as many routes
    as table entries. *)
Theorem table_matches_routes st :
  installed st ->
  (forall k I, In I (entry k st) ->
     exists stack,
       In (Route "POST" (hookKindPrefix k +:+ "_" +:+ ToString I) stack) (app st)
       /\ hooked k stack)
  /\ (forall rt, In rt (app st) ->
     exists k I,
       In I (entry k st)
       /\ route_method rt = "POST"
       /\ route_path rt = hookKindPrefix k +:+ "_" +:+ ToString I
       /\ hooked k (route_stack rt))
  /\ length (app st) = registrations st.
Proof.
  induction 1 as [|cn h st Hst IH|cn h st Hst IH|cn h st Hst IH|cn h st Hst IH
                  |fn h st Hst IH].
  - split; [|split; [|reflexivity]].
    + intros k I Hin. destruct k; destruct Hin.
    + intros rt [].
  - destruct IH as (H1 & H2 & H3).
    eapply (registers_keeps_link BeforeSave); eauto;
      [apply push_registers; [by apply installed_keys | reflexivity]
      |constructor].
  - destruct IH as (H1 & H2 & H3).
    eapply (registers_keeps_link AfterSave); eauto;
      [apply push_registers; [by apply installed_keys | reflexivity]
      |constructor].
  - destruct IH as (H1 & H2 & H3).
    eapply (registers_keeps_link BeforeDelete); eauto;
      [apply push_registers; [by apply installed_keys | reflexivity]
      |constructor].
  - destruct IH as (H1 & H2 & H3).
    eapply (registers_keeps_link AfterDelete); eauto;
      [apply push_registers; [by apply installed_keys | reflexivity]
      |constructor].
  - destruct IH as (H1 & H2 & H3).
    eapply (registers_keeps_link Function); eauto;
      [apply push_registers; [by apply installed_keys | reflexivity]
      |constructor].
Qed.




(** X15.  The path of a route tells its kind and the string form of its
    identifier: two registrations share a path only when they are of the
    same kind and their identifiers read the same as strings, so a route
    can only be shadowed (X4) by an earlier registration of its own kind
    and name. *)
Theorem path_determines_kind_and_name k k' I I' :
  hookKindPrefix k +:+ "_" +:+ ToString I
  = hookKindPrefix k' +:+ "_" +:+ ToString I' ->
  k = k' /\ ToString I = ToString I'.
Proof.
  generalize (ToString I) (ToString I'). intros s s'.
  destruct k, k'; simpl; intros E; inversion E; auto.
Qed.

(** A request served by a state is served alike by every state that
    mounts further routes. *)
Lemma mounted_later_is_shadowed st st' rt' r rt :
  installed st -> app st' = app st ++ [rt'] ->
  serving st r = Some rt ->
  handle_request webhookKey st' r = handle_request webhookKey st r.
Proof.
  intros Hst Happ Hs.
  destruct (authorized webhookKey r) eqn:Ha.
  - destruct (find_Forall _ _ _ _ (installed_hooked st Hst) Hs) as [k Hk].
    destruct (hooked_run k _ (admitted r) Hk) as (c' & ext & Hrun & _).
    rewrite (served webhookKey st r rt c' Ha Hs Hrun).
    apply (served webhookKey st' r rt c' Ha); [|exact Hrun].
    unfold serving. rewrite Happ. by apply find_app_Some.
  - by rewrite !handle_request_refused.
Qed.

(** X4.  The first registration wins: once a request is served by a
    mounted route, registering anything more (the same kind and identifier
    again included) changes nothing in how the request is handled; the
    route mounted later for the same path is never entered, because every
    stack ends in a handler layer that does not call [next()]. *)
Theorem first_registration_wins st r rt I h f st' :
  installed st ->
  serving st r = Some rt ->
  In st' [beforeSave I h st; afterSave I h st; beforeDelete I h st;
          afterDelete I h st; define I f st] ->
  handle_request webhookKey st' r = handle_request webhookKey st r.
Proof.
  intros Hst Hs Hin. simpl in Hin.
  destruct Hin as [<-|[<-|[<-|[<-|[<-|[]]]]]];
    by eapply mounted_later_is_shadowed.
Qed.

(** *** What the handler is given *)

Lemma strict_eq_undefined v : strict_eq v VUndefined = true <-> v = VUndefined.
Proof. destruct v; simpl; split; (done || discriminate). Qed.

Lemma truthy_is_object_holder b k : truthy (prop b k) = true -> exists m, b = VObj m.
Proof. destruct b; try discriminate. eauto. Qed.

(** The body as [inflateParseUser] leaves it. *)
Lemma inflateParseUser_body c :
  let b := req_body (req c) in
  let b' := req_body (req (inflateParseUser c).1) in
  (forall k, k <> "user" -> prop b' k = prop b k)
  /\ (forall k, k <> "className" -> prop (prop b' "user") k = prop (prop b "user") k)
  /\ (prop (prop b "user") "className" <> VUndefined -> b' = b)
  /\ (truthy (prop b "user") = false -> b' = b)
  /\ (forall m, prop b "user" = VObj m -> prop (VObj m) "className" = VUndefined ->
      prop (prop b' "user") "className" = VStr "_User").
Proof.
  unfold inflateParseUser. simpl.
  destruct (truthy (prop (req_body (req c)) "user")) eqn:Ht; simpl.
  2: { repeat split; try done. intros m Hm. rewrite Hm in Ht. discriminate Ht. }
  destruct (truthy_is_object_holder _ _ Ht) as [mb Hb].
  destruct (strict_eq (prop (prop (req_body (req c)) "user") "className")
              VUndefined) eqn:Hc; simpl.
  2: { repeat split; try done. intros m Hm Hu. rewrite Hm in Hc.
       simpl in Hc, Hu. rewrite Hu in Hc. discriminate Hc. }
  apply strict_eq_undefined in Hc. rewrite Hb in *. simpl.
  split; [|split; [|split; [|split]]].
  - intros k Hk. by rewrite lookup_insert_ne.
  - intros k Hk. rewrite lookup_insert_eq. simpl.
    destruct (default VUndefined (mb !! "user")); simpl; try done.
    by rewrite lookup_insert_ne.
  - intros Hne. by destruct Hne.
  - discriminate.
  - intros m Hm _. rewrite lookup_insert_eq. simpl in Hm. rewrite Hm. simpl.
    by rewrite lookup_insert_eq.
Qed.

Lemma inflateParseUser_user c :
  let b := req_body (req c) in
  let r' := req (inflateParseUser c).1 in
  (truthy (prop b "user") = false -> req_user r' = req_user (req c))
  /\ (forall m, prop b "user" = VObj m -> m !! "className" = None ->
      req_user r' =
        Parse_Object_fromJSON (VObj (<[ "className" := VStr "_User" ]> m)))
  /\ (forall m cls, prop b "user" = VObj m -> m !! "className" = Some cls ->
      cls <> VUndefined ->
      req_user r' = Parse_Object_fromJSON (VObj m)).
Proof.
  unfold inflateParseUser. simpl. split; [|split].
  - by intros ->.
  - intros m Hm Hc. rewrite Hm. simpl. rewrite Hc. simpl.
    destruct (truthy_is_object_holder (req_body (req c)) "user") as [mb Hb];
      [by rewrite Hm|].
    rewrite Hb. simpl. by rewrite lookup_insert_eq.
  - intros m cls Hm Hc Hne. rewrite Hm. simpl. rewrite Hc. simpl.
    destruct (strict_eq cls VUndefined) eqn:E;
      [by apply strict_eq_undefined in E|].
    simpl. by rewrite Hm.
Qed.

(** X6.  The user handed to a handler, on trigger and function routes
    alike: when the body has no [user] (or a falsy one) [req.user] is left
    unset; when [user] is an object without [className] it is rebuilt from
    that object with [className] set to ["_User"]; when the object has a
    [className] it is rebuilt from the object as sent, the class it names
    being kept. *)
Theorem user_inflated_with_default_class r q :
  q = trigger_request r \/ q = function_request r ->
  (truthy (prop (req_body r) "user") = false -> req_user q = req_user r)
  /\ (forall m, prop (req_body r) "user" = VObj m -> m !! "className" = None ->
      req_user q =
        Parse_Object_fromJSON (VObj (<[ "className" := VStr "_User" ]> m)))
  /\ (forall m cls, prop (req_body r) "user" = VObj m ->
      m !! "className" = Some cls -> cls <> VUndefined ->
      req_user q = Parse_Object_fromJSON (VObj m)).
Proof.
  intros [-> | ->].
  - exact (inflateParseUser_user
             (inflateParseObject (updateRequestInstallationId (new_context r)).1).1).
  - exact (inflateParseUser_user
             (updateRequestFunctionParams
                (updateRequestInstallationId (new_context r)).1).1).
Qed.

(** X7.  What the layers promote from the body: [req.installationId] and
    [req.master] are the body's fields on every route ([master] read after
    the user was inflated, which does not touch it); [req.params] is the
    body's [params] on function routes only, and trigger routes leave it as
    it came; function routes never set [req.object]; method, path and
    headers are never changed. *)
Theorem body_fields_promoted r :
  (req_installationId (trigger_request r) = prop (req_body r) "installationId"
   /\ req_master (trigger_request r) = prop (req_body r) "master"
   /\ req_params (trigger_request r) = req_params r)
  /\ (req_installationId (function_request r) = prop (req_body r) "installationId"
      /\ req_master (function_request r) = prop (req_body r) "master"
      /\ req_params (function_request r) = prop (req_body r) "params"
      /\ req_object (function_request r) = req_object r)
  /\ (req_method (trigger_request r) = req_method r
      /\ req_path (trigger_request r) = req_path r
      /\ req_headers (trigger_request r) = req_headers r
      /\ req_method (function_request r) = req_method r
      /\ req_path (function_request r) = req_path r
      /\ req_headers (function_request r) = req_headers r).
Proof.
  pose proof (inflateParseUser_body
    (inflateParseObject (updateRequestInstallationId (new_context r)).1).1)
    as (Ht & _).
  pose proof (inflateParseUser_body
    (updateRequestFunctionParams (updateRequestInstallationId (new_context r)).1).1)
    as (Hf & _).
  specialize (Ht "master" ltac:(discriminate)).
  specialize (Hf "master" ltac:(discriminate)).
  unfold trigger_request, function_request, inflateParseUser in *.
  simpl in *.
  destruct (truthy (prop (req_body r) "user")); simpl in *;
    repeat split; auto.
Qed.

(** X8.  The only change ever made to the raw body is
    [body.user.className]: every other field of the body and every other
    field of its [user] reads as it was sent; the body is left exactly as
    sent when it has no (truthy) [user] or when the user already has a
    [className]; and a user object sent without [className] reads
    ["_User"] afterwards. *)
Theorem body_changed_at_user_class_only r q :
  q = trigger_request r \/ q = function_request r ->
  (forall k, k <> "user" -> prop (req_body q) k = prop (req_body r) k)
  /\ (forall k, k <> "className" ->
      prop (prop (req_body q) "user") k = prop (prop (req_body r) "user") k)
  /\ (prop (prop (req_body r) "user") "className" <> VUndefined ->
      req_body q = req_body r)
  /\ (truthy (prop (req_body r) "user") = false -> req_body q = req_body r)
  /\ (forall m, prop (req_body r) "user" = VObj m ->
      prop (VObj m) "className" = VUndefined ->
      prop (prop (req_body q) "user") "className" = VStr "_User").
Proof.
  intros [-> | ->].
  - exact (inflateParseUser_body
             (inflateParseObject (updateRequestInstallationId (new_context r)).1).1).
  - exact (inflateParseUser_body
             (updateRequestFunctionParams
                (updateRequestInstallationId (new_context r)).1).1).
Qed.

(** *** What the before-hooks answer *)

Lemma transmitted_after_entries pre w :
  responses pre = [] -> transmitted (pre ++ w) = transmitted w.
Proof.
  intros Hp. unfold transmitted, responses in *. by rewrite omap_app, Hp.
Qed.

(** X9.  On a [beforeDelete] route nothing is sent for the handler: the
    wire holds the six layer entries and then one envelope per call the
    handler makes, in order, [{success: x || true}] for [res.success(x)]
    and [{error: x || true}] for [res.error(x)].  So the client receives
    the envelope of the handler's first call, with the payload it passed,
    and a handler that makes no call leaves the request unanswered. *)
Theorem beforeDelete_replies st r rt cn h :
  authorized webhookKey r = true ->
  serving st r = Some rt ->
  route_stack rt = beforeDelete_stack cn h ->
  wire (handle_request webhookKey st r) =
    [Enter "validateWebhookRequest"; Enter "jsonParser"; Enter "entryLogger";
     Enter "updateRequestInstallationId"; Enter "addParseResponseMethods";
     Enter "inflateParseObject"; Enter "inflateParseUser"; Enter "handler"]
    ++ plain_replies (h (trigger_request r))
  /\ transmitted (wire (handle_request webhookKey st r)) =
     match h (trigger_request r) with
     | [] => None
     | CallSuccess x :: _ => Some (200, VObj {[ "success" := or_true x ]})
     | CallError x :: _ => Some (200, VObj {[ "error" := or_true x ]})
     | SetObject _ :: rest => transmitted (plain_replies rest)
     end.
Proof.
  intros Ha Hs Hst.
  assert (E : wire (handle_request webhookKey st r) =
    [Enter "validateWebhookRequest"; Enter "jsonParser"; Enter "entryLogger";
     Enter "updateRequestInstallationId"; Enter "addParseResponseMethods";
     Enter "inflateParseObject"; Enter "inflateParseUser"; Enter "handler"]
    ++ plain_replies (h (trigger_request r))).
  { erewrite served; eauto; [|rewrite Hst; apply beforeDelete_run].
    by rewrite perform_plain. }
  split; [exact E|]. rewrite E, transmitted_after_entries by reflexivity.
  by destruct (h (trigger_request r)) as [|[x|x|o] rest].
Qed.

Lemma perform_echo acts : forall c,
  res_success c =
    Some (fun _ rq res =>
            successResponse res (Parse_Object_toJSON (req_object rq))) ->
  res_error c = Some (fun data _ res => errorResponse res data) ->
  wire (fold_left perform acts c) =
  wire c ++ echo_replies (req_object (req c)) acts.
Proof.
  induction acts as [|a acts IH]; intros c Hs He; simpl.
  - by rewrite app_nil_r.
  - rewrite IH.
    + destruct a; simpl; unfold apply_responder; rewrite ?Hs, ?He;
        unfold successResponse, errorResponse, status_send; simpl;
        by rewrite <- ?app_assoc.
    + by destruct a.
    + by destruct a.
Qed.

Lemma echo_replies_after_changes acts objs : forall o,
  exists o', echo_replies o (map SetObject objs ++ acts) = echo_replies o' acts.
Proof. induction objs as [|o1 objs IH]; intros o; simpl; eauto. Qed.

(** X10.  On a [beforeSave] route the wire holds the seven layer entries
    and then one envelope per call of the handler, in order: for
    [res.success(...)] the object as the handler's changes before that call
    left it, whatever the argument, and for [res.error(x)] the envelope
    [{error: x || true}].  A handler that, after changing the object or
    not, calls [res.error(x)] first is answered [{error: x || true}]: the
    object is not echoed on the error path. *)
Theorem beforeSave_replies st r rt cn h :
  authorized webhookKey r = true ->
  serving st r = Some rt ->
  route_stack rt = beforeSave_stack cn h ->
  wire (handle_request webhookKey st r) =
    [Enter "validateWebhookRequest"; Enter "jsonParser"; Enter "entryLogger";
     Enter "updateRequestInstallationId"; Enter "addParseResponseMethods";
     Enter "inflateParseObject"; Enter "inflateParseUser";
     Enter "beforeSaveResponseMojo"; Enter "handler"]
    ++ echo_replies (req_object (trigger_request r)) (h (trigger_request r))
  /\ (forall objs x rest,
        h (trigger_request r) = map SetObject objs ++ CallError x :: rest ->
        transmitted (wire (handle_request webhookKey st r)) =
          Some (200, VObj {[ "error" := or_true x ]})).
Proof.
  intros Ha Hs Hst.
  assert (E : wire (handle_request webhookKey st r) =
    [Enter "validateWebhookRequest"; Enter "jsonParser"; Enter "entryLogger";
     Enter "updateRequestInstallationId"; Enter "addParseResponseMethods";
     Enter "inflateParseObject"; Enter "inflateParseUser";
     Enter "beforeSaveResponseMojo"; Enter "handler"]
    ++ echo_replies (req_object (trigger_request r)) (h (trigger_request r))).
  { erewrite served; eauto; [|rewrite Hst; apply beforeSave_run].
    by rewrite perform_echo. }
  split; [exact E|].
  intros objs x rest Hh. rewrite E, transmitted_after_entries by reflexivity.
  rewrite Hh.
  destruct (echo_replies_after_changes (CallError x :: rest) objs
              (req_object (trigger_request r))) as [o' ->].
  reflexivity.
Qed.

(** *** How often a handler runs *)

Lemma handler_calls_app w1 w2 :
  handler_calls (w1 ++ w2) = (handler_calls w1 + handler_calls w2)%nat.
Proof.
  induction w1 as [|[s b|n] w1 IH]; simpl; [done | done |].
  rewrite IH. lia.
Qed.

Lemma handler_calls_replies ext :
  Forall (fun e => exists b, e = Sent 200 b /\ is_envelope b = true) ext ->
  handler_calls ext = 0%nat.
Proof. induction 1 as [|e ext (b & -> & _) _ IH]; simpl; done. Qed.

Lemma hooked_calls_once k stack c :
  hooked k stack ->
  exists c', run_stack stack c = (c', false)
             /\ handler_calls (wire c') = S (handler_calls (wire c)).
Proof.
  assert (Hmojo : sends_envelope
    (Some (fun (_ : value) rq res =>
             successResponse res (Parse_Object_toJSON (req_object rq))))).
  { intros d rq w. eexists. split; [reflexivity | apply is_envelope_success]. }
  destruct 1 as [cn h|cn h|cn h|cn h|fn h].
  1: rewrite beforeSave_run. 2: rewrite afterSave_run.
  3: rewrite beforeDelete_run. 4: rewrite afterDelete_run.
  1-4: match goal with |- context [fold_left perform ?acts ?c0] =>
         destruct (perform_all acts c0) as (ext & Hw & Hext);
           [first [exact Hmojo | exact sends_envelope_success]
           |exact sends_envelope_error|]
       end;
       eexists; (split; [reflexivity|]); rewrite Hw; simpl wire;
       rewrite !handler_calls_app, (handler_calls_replies ext Hext);
       simpl; lia.
  rewrite function_run, settle_ends. eexists. split; [reflexivity|].
  unfold settle. simpl req.
  destruct (h (function_request (req c))) as [V|E|];
    cbv beta iota delta [fst call on_wire apply_responder wire res_success
                         res_error req successResponse errorResponse
                         status_send];
    rewrite !handler_calls_app; simpl; lia.
Qed.

(** X11.  In every state the module can reach: a request that fails the
    key check enters no user handler, and an authorized request served by
    a mounted route enters the layer of a user handler exactly once,
    whichever route it is and whatever the handler does (the SDK's
    conversions on the way returning normally). *)
Theorem handler_entered_once st r :
  installed st ->
  (authorized webhookKey r = false ->
   handler_calls (wire (handle_request webhookKey st r)) = 0%nat)
  /\ (forall rt,
        authorized webhookKey r = true ->
        serving st r = Some rt ->
        handler_calls (wire (handle_request webhookKey st r)) = 1%nat).
Proof.
  intros Hst. split.
  - intros Ha. by rewrite (handle_request_refused webhookKey st r Ha).
  - intros rt Ha Hs.
    destruct (find_Forall _ _ _ _ (installed_hooked st Hst) Hs) as [k Hk].
    destruct (hooked_calls_once k _ (admitted r) Hk) as (c' & Hrun & Hn).
    by rewrite (served webhookKey st r rt c' Ha Hs Hrun), Hn.
Qed.

(** *** The egress helper *)

(** X13.  [httpRequest] throws on [undefined] or [null] options before
    the transport is called.  Given an options object it calls the
    transport with [json] set to [true], whatever the caller had put there,
    and every other option as given; the caller's object is left with that
    [json], and the promise depends on the transport only through its
    answer to these options. *)
Theorem httpRequest_forces_json Request options :
  (options = VUndefined \/ options = VNull -> httpRequest Request options = None)
  /\ (forall m, options = VObj m ->
      exists d,
        httpRequest Request options = Some (VObj (<[ "json" := VBool true ]> m), d)
        /\ prop (VObj (<[ "json" := VBool true ]> m)) "json" = VBool true
        /\ (forall k, k <> "json" ->
              prop (VObj (<[ "json" := VBool true ]> m)) k = prop options k)
        /\ (forall Request' : transport,
              Request' (VObj (<[ "json" := VBool true ]> m))
              = Request (VObj (<[ "json" := VBool true ]> m)) ->
              httpRequest Request' options = httpRequest Request options)).
Proof.
  split; [by intros [-> | ->]|].
  intros m ->. eexists. split; [reflexivity|].
  split; [simpl; by rewrite lookup_insert_eq|].
  split; [intros k Hk; simpl; by rewrite lookup_insert_ne|].
  intros R' HR. unfold httpRequest. simpl. by rewrite HR.
Qed.

(** X14.  How the promise of [httpRequest] settles, case by case and
    back.  When the transport reports a truthy error the promise is
    rejected with the response argument of the callback, and it is rejected
    in no other case: the error itself is never what the caller gets.  When
    the transport reports no error and a response, the promise is resolved
    with that response, its [text] set to the body and its other fields as
    received, and it is resolved in no other case.  When the transport
    never calls back, or reports no error and no response ([undefined] or
    [null]), the promise stays pending, and it stays pending in no other
    case. *)
Theorem httpRequest_settles Request options o d :
  httpRequest Request options = Some (o, d) ->
  (forall x, d = Rejected x ->
     exists error body,
       Request o = Some (error, x, body) /\ truthy error = true)
  /\ (forall x, d = Resolved x ->
     exists error response body,
       Request o = Some (error, response, body)
       /\ truthy error = false
       /\ x = set_prop response "text" body
       /\ (forall m, response = VObj m ->
             prop x "text" = body
             /\ forall k, k <> "text" -> prop x k = prop response k))
  /\ (d = Pending ->
     Request o = None
     \/ exists error response body,
          Request o = Some (error, response, body)
          /\ truthy error = false
          /\ (response = VUndefined \/ response = VNull))
  /\ (Request o = None -> d = Pending)
  /\ (forall error response body,
        Request o = Some (error, response, body) ->
        (truthy error = true -> d = Rejected response)
        /\ (truthy error = false ->
            response = VUndefined \/ response = VNull -> d = Pending)
        /\ (truthy error = false ->
            response <> VUndefined -> response <> VNull ->
            d = Resolved (set_prop response "text" body))).
Proof.
  unfold httpRequest. destruct (assign options "json" (VBool true)) as [o'|];
    [|discriminate].
  intros [= <- <-].
  split; [|split; [|split; [|split]]].
  - destruct (Request o') as [[[error response] body]|]; [|discriminate].
    destruct (truthy error) eqn:Ht.
    + intros x [= <-]. eauto.
    + destruct (assign response "text" body); discriminate.
  - destruct (Request o') as [[[error response] body]|]; [|discriminate].
    destruct (truthy error) eqn:Ht; [discriminate|].
    destruct (assign response "text" body) as [x'|] eqn:Hx; [|discriminate].
    intros x [= <-]. exists error, response, body.
    assert (Hx' : x' = set_prop response "text" body)
      by (destruct response; simpl in Hx |- *; congruence).
    split; [reflexivity|]. split; [exact Ht|]. split; [exact Hx'|].
    intros m ->. subst x'. simpl.
    split; [by rewrite lookup_insert_eq|].
    intros k Hk. by rewrite lookup_insert_ne.
  - destruct (Request o') as [[[error response] body]|]; [|by left].
    destruct (truthy error) eqn:Ht; [discriminate|].
    destruct (assign response "text" body) as [x'|] eqn:Hx; [discriminate|].
    intros _. right. exists error, response, body.
    split; [reflexivity|]. split; [exact Ht|].
    destruct response; simpl in Hx; auto; discriminate.
  - by intros ->.
  - intros error response body ->. split; [|split].
    + by intros ->.
    + intros -> [-> | ->]; reflexivity.
    + intros -> Hu Hn. by destruct response.
Qed.

End Behaviour.

(** ** The theorems at concrete requests

    Each statement below is one of the theorems above applied over a
    stand-in SDK, or the evaluation of the model at an input where the
    specification and the code part. *)

#[local] Existing Instance wireSDK.

Lemma unauthorized_request_rejected_witness :
  authorized secret (post "/beforeSave_Post" (Some "guess") (VObj ∅)) = false
  /\ responses (wire (handle_request secret hooks
                        (post "/beforeSave_Post" (Some "guess") (VObj ∅)))) =
     [(200, VObj {[ "error" := VStr "Unauthorized Request." ]})].
Proof.
  split; [reflexivity|].
  exact (proj1 (proj2 (unauthorized_request_rejected secret hooks
                         (post "/beforeSave_Post" (Some "guess") (VObj ∅))
                         eq_refl))).
Defined.

Lemma registration_records_and_mounts_witness :
  installed (Parse := wireSDK) hooks
  /\ registers AfterSave (VStr "Comment")
       (afterSave_stack (Parse := wireSDK) (VStr "Comment") accept)
       hooks (afterSave (VStr "Comment") accept hooks).
Proof.
  assert (H : installed (Parse := wireSDK) hooks) by repeat constructor.
  split; [exact H|].
  exact (proj1 (proj2 (registration_records_and_mounts
                         hooks (VStr "Comment") accept greet H))).
Defined.

Lemma class_name_derivation_witness :
  prop class_Post "className" = VStr "Post"
  /\ registered_as (H := wireSDK) class_Post (VStr "Post") accept hooks.
Proof.
  split; [reflexivity|].
  refine (proj1 (proj1 (class_name_derivation class_Post accept greet hooks)
                   "Post" eq_refl _)).
  discriminate.
Defined.

Lemma object_inflation_witness :
  authorized secret (update_request "/beforeDelete_Post") = true
  /\ exists c,
       handle_request secret hooks (update_request "/beforeDelete_Post")
         = (invoke accept c).1
       /\ req_object (req c) = retitled.
Proof.
  split; [reflexivity|].
  destruct (object_inflation (Parse := wireSDK) secret hooks
              (update_request "/beforeDelete_Post") _ (VStr "Post") accept
              eq_refl eq_refl (or_intror (or_intror (or_introl eq_refl))))
    as (c & Hc & _ & Ho & _).
  exists c. split; [exact Hc|].
  exact (Ho _ _ eq_refl eq_refl).
Defined.

Lemma beforeSave_success_echoes_object_witness :
  authorized secret (save_request "/beforeSave_Post") = true
  /\ responses (wire (handle_request secret
                        (beforeSave (Parse := attributesSDK) (VStr "Post")
                           accept initial)
                        (save_request "/beforeSave_Post"))) =
     [(200, VObj {[ "success" :=
                      VObj {[ "objectId" := VStr "1"; "title" := VStr "a" ]} ]})].
Proof.
  split; [reflexivity|].
  exact (proj1 (beforeSave_success_echoes_object (Parse := attributesSDK) secret
                  (beforeSave (Parse := attributesSDK) (VStr "Post") accept
                     initial)
                  (save_request "/beforeSave_Post") _ (VStr "Post") accept
                  a_post [] eq_refl eq_refl eq_refl eq_refl eq_refl eq_refl
                  eq_refl)).
Defined.

Lemma beforeSave_success_ignores_payload_witness :
  responses (wire (handle_request secret
                     (beforeSave (Parse := wireSDK) (VStr "Post") retitle initial)
                     (save_request "/beforeSave_Post"))) =
  [(200, VObj {[ "success" := retitled ]})].
Proof.
  exact (proj1 (beforeSave_success_ignores_payload (Parse := wireSDK) secret
                  (beforeSave (VStr "Post") retitle initial)
                  (save_request "/beforeSave_Post") _ (VStr "Post") retitle
                  [retitled] (VStr "done")
                  eq_refl eq_refl eq_refl eq_refl eq_refl)).
Defined.

Lemma after_hooks_reply_empty_witness :
  authorized secret (save_request "/afterSave_Post") = true
  /\ transmitted (wire (handle_request secret hooks
                          (save_request "/afterSave_Post"))) =
     Some (200, VObj ∅).
Proof.
  split; [reflexivity|].
  exact (proj2 (after_hooks_reply_empty (Parse := wireSDK) secret hooks
                  (save_request "/afterSave_Post") _ (VStr "Post") retitle
                  eq_refl eq_refl (or_introl eq_refl))).
Defined.

Lemma function_reply_witness :
  authorized secret (post "/function_hello" (Some "s3cret") (VObj ∅)) = true
  /\ responses (wire (handle_request secret hooks
                        (post "/function_hello" (Some "s3cret") (VObj ∅)))) =
     [(200, VObj {[ "success" := VStr "Hello world!" ]})].
Proof.
  split; [reflexivity|].
  exact (proj1 (function_reply (Parse := wireSDK) secret hooks
                  (post "/function_hello" (Some "s3cret") (VObj ∅)) _
                  (VStr "hello") greet eq_refl eq_refl eq_refl)).
Defined.

Lemma replies_status_200_witness :
  installed (Parse := wireSDK) hooks
  /\ (200 = 200
      /\ (is_envelope (VObj {[ "success" := a_post ]}) = true
          \/ (VObj {[ "success" := a_post ]} = VObj ∅
              /\ exists rt,
                   serving hooks (save_request "/beforeSave_Post") = Some rt
                   /\ (hooked (Parse := wireSDK) AfterSave (route_stack rt)
                       \/ hooked (Parse := wireSDK) AfterDelete (route_stack rt))))).
Proof.
  assert (H : installed (Parse := wireSDK) hooks) by repeat constructor.
  split; [exact H|].
  refine (replies_status_200 (Parse := wireSDK) secret hooks
            (save_request "/beforeSave_Post") H 200 _ _).
  vm_compute. do 9 right. left. reflexivity.
Defined.

(** C2, where the claim fails.  A function that resolves with [false] is
    answered [{success: true}], not [{success: encode(false)}]; one that
    rejects with [0] is answered [{error: true}], not [{error: 0}]. *)
Lemma function_falsy_outcome_replaced :
  let ask st := responses (wire (handle_request secret st
                  (post "/function_check" (Some "s3cret") (VObj ∅)))) in
  ask (define (Parse := wireSDK) (VStr "check") isAdmin initial) =
    [(200, VObj {[ "success" := VBool true ]})]
  /\ ask (define (Parse := wireSDK) (VStr "check") isAdmin initial) <>
    [(200, VObj {[ "success" := Parse_encode (ParseSDK := wireSDK) (VBool false) ]})]
  /\ ask (define (Parse := wireSDK) (VStr "check") countOf initial) =
    [(200, VObj {[ "error" := VBool true ]})]
  /\ ask (define (Parse := wireSDK) (VStr "check") countOf initial) <>
    [(200, VObj {[ "error" := VNum 0 ]})].
Proof.
  repeat split; try reflexivity; vm_compute; intros E; inversion E.
Qed.

(** C3, where the claim fails.  The reply of an [afterSave] route is the
    bare [{}]; it is not the empty object inside the success envelope. *)
Lemma afterSave_reply_not_enveloped :
  transmitted (wire (handle_request secret hooks
                       (save_request "/afterSave_Post"))) =
    Some (200, VObj ∅)
  /\ transmitted (wire (handle_request secret hooks
                          (save_request "/afterSave_Post"))) <>
    Some (200, VObj {[ "success" := VObj ∅ ]}).
Proof.
  split; [reflexivity|]. vm_compute. intros E. inversion E.
Qed.

(** C4, where the claim fails.  Over an SDK whose [toJSON] leaves the class
    name out, as [Parse.Object.toJSON] does, a [beforeSave] handler that
    changes nothing and calls [res.success()] is answered the attributes of
    the object, which is not the [object] of the request body. *)
Lemma beforeSave_echo_is_not_the_body :
  responses (wire (handle_request secret
                     (beforeSave (Parse := attributesSDK) (VStr "Post")
                        accept initial)
                     (save_request "/beforeSave_Post"))) =
    [(200, VObj {[ "success" :=
                     VObj {[ "objectId" := VStr "1"; "title" := VStr "a" ]} ]})]
  /\ responses (wire (handle_request secret
                        (beforeSave (Parse := attributesSDK) (VStr "Post")
                           accept initial)
                        (save_request "/beforeSave_Post"))) <>
    [(200, VObj {[ "success" := a_post ]})].
Proof.
  split; [reflexivity|]. vm_compute. intros E. inversion E.
Qed.

(** C5, where the claim fails.  [false] is a supplied payload, and
    [false ?? true] is [false]; both senders put [true] on the wire. *)
Lemma supplied_false_sent_as_true :
  successResponse [] (VBool false) =
    [Sent 200 (VObj {[ "success" := VBool true ]})]
  /\ successResponse [] (VBool false) <>
    [Sent 200 (VObj {[ "success" := nullish_or_true (VBool false) ]})]
  /\ errorResponse [] (VBool false) <>
    [Sent 200 (VObj {[ "error" := nullish_or_true (VBool false) ]})].
Proof.
  repeat split; try reflexivity; vm_compute; intros E; inversion E.
Qed.

(** C6, where the claim fails.  The reply of an [afterDelete] route holds
    neither [success] nor [error]. *)
Lemma afterDelete_reply_has_neither_key :
  responses (wire (handle_request secret hooks
                     (save_request "/afterDelete_Post"))) =
    [(200, VObj ∅); (200, VObj {[ "success" := VBool true ]})]
  /\ has_key "success" (VObj ∅) = false
  /\ has_key "error" (VObj ∅) = false
  /\ is_envelope (VObj ∅) = false.
Proof. repeat split; reflexivity. Qed.

(** C8, where the claim fails.  [Parse.Cloud.define] given an object that
    carries a class name registers the object, not its class name: the
    path and the table entry differ from those of the bare string. *)
Lemma define_does_not_derive_class_name :
  map route_path (app (Parse_Cloud_define (Parse := wireSDK) class_Post greet initial))
    = ["/function_[object Object]"]
  /\ map route_path (app (Parse_Cloud_define (Parse := wireSDK) (VStr "Post") greet initial))
    = ["/function_Post"]
  /\ entry Function (Parse_Cloud_define (Parse := wireSDK) class_Post greet initial)
    = [class_Post]
  /\ entry Function (Parse_Cloud_define (Parse := wireSDK) (VStr "Post") greet initial)
    = [VStr "Post"]
  /\ class_Post <> VStr "Post".
Proof. repeat split; try reflexivity. discriminate. Qed.

(** ** The further properties at concrete requests *)

Lemma unset_key_admits_headerless_witness :
  handle_request VUndefined hooks (post "/beforeSave_Post" None (VObj ∅))
  = dispatch (app hooks) (admitted (post "/beforeSave_Post" None (VObj ∅))).
Proof.
  exact (proj1 (unset_key_admits_headerless hooks
                  (post "/beforeSave_Post" None (VObj ∅))) eq_refl).
Defined.


Lemma table_matches_routes_witness :
  installed (Parse := wireSDK) hooks
  /\ length (app hooks) = registrations hooks.
Proof.
  assert (H : installed (Parse := wireSDK) hooks) by repeat constructor.
  split; [exact H|].
  exact (proj2 (proj2 (table_matches_routes hooks H))).
Defined.

Lemma path_determines_kind_and_name_witness :
  AfterSave = AfterSave /\ ToString (VStr "Post") = ToString (VStr "Post").
Proof.
  exact (path_determines_kind_and_name AfterSave AfterSave (VStr "Post")
           (VStr "Post") eq_refl).
Defined.

Lemma first_registration_wins_witness :
  handle_request secret (beforeSave (VStr "Post") refuse hooks)
    (save_request "/beforeSave_Post")
  = handle_request secret hooks (save_request "/beforeSave_Post").
Proof.
  assert (H : installed (Parse := wireSDK) hooks) by repeat constructor.
  exact (first_registration_wins secret hooks (save_request "/beforeSave_Post")
           _ (VStr "Post") refuse greet _ H eq_refl (or_introl eq_refl)).
Defined.

Lemma user_inflated_with_default_class_witness :
  req_user (trigger_request (user_request "/beforeSave_Post"))
  = VObj {[ "className" := VStr "_User"; "objectId" := VStr "u1" ]}.
Proof.
  exact (proj1 (proj2 (user_inflated_with_default_class
                         (user_request "/beforeSave_Post") _
                         (or_introl eq_refl)))
           {[ "objectId" := VStr "u1" ]} eq_refl eq_refl).
Defined.

Lemma body_changed_at_user_class_only_witness :
  prop (prop (req_body (function_request (user_request "/function_hello")))
          "user") "className"
  = VStr "_User".
Proof.
  exact (proj2 (proj2 (proj2 (proj2 (body_changed_at_user_class_only
                         (user_request "/function_hello") _
                         (or_intror eq_refl)))))
           {[ "objectId" := VStr "u1" ]} eq_refl eq_refl).
Defined.

Lemma beforeDelete_replies_witness :
  transmitted (wire (handle_request secret hooks
                       (save_request "/beforeDelete_Post")))
  = Some (200, VObj {[ "success" := VBool true ]}).
Proof.
  exact (proj2 (beforeDelete_replies secret hooks
                  (save_request "/beforeDelete_Post") _ (VStr "Post") accept
                  eq_refl eq_refl eq_refl)).
Defined.

Lemma beforeSave_replies_witness :
  transmitted (wire (handle_request secret
                       (beforeSave (VStr "Post") refuse initial)
                       (save_request "/beforeSave_Post")))
  = Some (200, VObj {[ "error" := VStr "No edits." ]}).
Proof.
  exact (proj2 (beforeSave_replies secret
                  (beforeSave (VStr "Post") refuse initial)
                  (save_request "/beforeSave_Post") _ (VStr "Post") refuse
                  eq_refl eq_refl eq_refl)
           [] (VStr "No edits.") [] eq_refl).
Defined.

Lemma handler_entered_once_witness :
  installed (Parse := wireSDK) hooks
  /\ handler_calls (wire (handle_request secret hooks
                            (save_request "/afterSave_Post"))) = 1%nat.
Proof.
  assert (H : installed (Parse := wireSDK) hooks) by repeat constructor.
  split; [exact H|].
  exact (proj2 (handler_entered_once secret hooks
                  (save_request "/afterSave_Post") H) _ eq_refl eq_refl).
Defined.

Lemma httpRequest_forces_json_witness :
  httpRequest answering VUndefined = None.
Proof.
  exact (proj1 (httpRequest_forces_json answering VUndefined)
           (or_introl eq_refl)).
Defined.

Lemma httpRequest_settles_witness :
  exists error body,
    unreachable (VObj {[ "json" := VBool true; "url" := VStr "http://example.org" ]})
    = Some (error, VUndefined, body)
    /\ truthy error = true.
Proof.
  exact (proj1 (httpRequest_settles unreachable
                  (VObj {[ "url" := VStr "http://example.org" ]})
                  (VObj {[ "json" := VBool true;
                           "url" := VStr "http://example.org" ]})
                  (Rejected VUndefined) eq_refl)
           VUndefined eq_refl).
Defined.
